(** * mailer-service-sdk-go: a shallow embedding of the client and its properties

    The repository holds three revisions of one thin REST client:
    - [client.go]: the HMAC revision, which sends through [hmac.Client];
    - [unnamed/part_000]: plain HTTP, raw query strings, with [doRequest];
    - [unnamed/part_001]: plain HTTP, structured list requests plus
      [...WithQuery] variants.

    Go strings are byte sequences, so a Go [string] is a Rocq [string] (a list
    of 8-bit [ascii]) and a [[]byte] is a [list byte].  Go's [int] and
    [time.Duration] are modelled as [Z]; the client does no arithmetic on
    them, so no wrap-around arises.  A Go result of a pointer and an [error] is a pair
    [option T * option error], [None] standing for [nil]. *)

From Stdlib Require Import ZArith List String Ascii Bool Lia.
From Stdlib Require Import Strings.Byte Numbers.DecimalString.
Import ListNotations.
Open Scope Z_scope.
Open Scope string_scope.

Set Implicit Arguments.

(** ** Go standard library functions used by the client *)

Module Go.

(** [strings.TrimRight(s, cutset)] for a cutset of ASCII characters: the
    longest suffix of [s] made of cutset bytes is removed. *)
Definition inCutset (c : ascii) (cutset : string) : bool :=
  existsb (Ascii.eqb c) (list_ascii_of_string cutset).

Fixpoint TrimRight (s cutset : string) : string :=
  match s with
  | EmptyString => EmptyString
  | String c r =>
      match TrimRight r cutset with
      | EmptyString => if inCutset c cutset then EmptyString else String c EmptyString
      | r' => String c r'
      end
  end.

(** The built-in [append(s, x)] on a slice. *)
Definition append {A} (s : list A) (x : A) : list A := (s ++ [x])%list.

(** [strings.Join(elems, sep)]. *)
Definition Join (elems : list string) (sep : string) : string :=
  String.concat sep elems.

(** The verb [%d] of [fmt.Sprintf] on an [int]: decimal digits, with a
    leading minus sign for a negative number. *)
Definition fmt_d (n : Z) : string := NilZero.string_of_int (Z.to_int n).

(** [net/url]: the escaping modes the client reaches ([PathEscape] uses
    [encodePathSegment], [QueryEscape] uses [encodeQueryComponent]). *)
Inductive encoding := encodePathSegment | encodeQueryComponent.

Definition isAlnum (c : ascii) : bool :=
  (Ascii.leb "a" c && Ascii.leb c "z")
  || (Ascii.leb "A" c && Ascii.leb c "Z")
  || (Ascii.leb "0" c && Ascii.leb c "9").

(** [url.shouldEscape], restricted to the two modes above. *)
Definition shouldEscape (c : ascii) (mode : encoding) : bool :=
  if isAlnum c then false
  else if inCutset c "-_.~" then false
  else if inCutset c "$&+,/:;=?@" then
    match mode with
    | encodePathSegment =>
        Ascii.eqb c "/" || Ascii.eqb c ";" || Ascii.eqb c "," || Ascii.eqb c "?"
    | encodeQueryComponent => true
    end
  else true.

Definition upperhex : string := "0123456789ABCDEF".

Definition hexDigit (i : N) : ascii :=
  match String.get (N.to_nat i) upperhex with
  | Some d => d
  | None => "0"%char
  end.

(** [url.escape]: a space becomes [+] in a query component, every other
    byte that must be escaped becomes [%XX] with upper-case digits. *)
Fixpoint escape (s : string) (mode : encoding) : string :=
  match s with
  | EmptyString => EmptyString
  | String c r =>
      match mode with
      | encodeQueryComponent =>
          if Ascii.eqb c " " then String "+" (escape r mode)
          else if shouldEscape c mode then
            String "%" (String (hexDigit (N.shiftr (N_of_ascii c) 4))
                     (String (hexDigit (N.land (N_of_ascii c) 15)) (escape r mode)))
          else String c (escape r mode)
      | encodePathSegment =>
          if shouldEscape c mode then
            String "%" (String (hexDigit (N.shiftr (N_of_ascii c) 4))
                     (String (hexDigit (N.land (N_of_ascii c) 15)) (escape r mode)))
          else String c (escape r mode)
      end
  end.

Definition PathEscape (s : string) : string := escape s encodePathSegment.
Definition QueryEscape (s : string) : string := escape s encodeQueryComponent.

(** [url.ishex] and [url.unhex]. *)
Definition ishex (c : ascii) : bool :=
  (Ascii.leb "0" c && Ascii.leb c "9")
  || (Ascii.leb "a" c && Ascii.leb c "f")
  || (Ascii.leb "A" c && Ascii.leb c "F").

Definition unhex (c : ascii) : N :=
  if Ascii.leb "0" c && Ascii.leb c "9" then N_of_ascii c - 48
  else if Ascii.leb "a" c && Ascii.leb c "f" then N_of_ascii c - 97 + 10
  else if Ascii.leb "A" c && Ascii.leb c "F" then N_of_ascii c - 65 + 10
  else 0.

(** [url.unescape], as a receiver of the URL applies it: [%XX] becomes the
    byte, [+] a space in a query component only; [None] stands for the
    escape error on a [%] that two hex digits do not follow. *)
Fixpoint unescape (s : string) (mode : encoding) : option string :=
  match s with
  | EmptyString => Some EmptyString
  | String c r =>
      if Ascii.eqb c "%" then
        match r with
        | String h (String l r') =>
            if ishex h && ishex l then
              option_map (String (ascii_of_N (N.lor (N.shiftl (unhex h) 4) (unhex l))))
                         (unescape r' mode)
            else None
        | _ => None
        end
      else if Ascii.eqb c "+" then
        match mode with
        | encodeQueryComponent => option_map (String " ") (unescape r mode)
        | encodePathSegment => option_map (String "+") (unescape r mode)
        end
      else option_map (String c) (unescape r mode)
  end.

Definition PathUnescape (s : string) : option string := unescape s encodePathSegment.
Definition QueryUnescape (s : string) : option string := unescape s encodeQueryComponent.


(** [strings.Split(s, sep)] for a one-byte separator. *)
Fixpoint Split (s : string) (sep : ascii) : list string :=
  match s with
  | EmptyString => [EmptyString]
  | String c r =>
      if Ascii.eqb c sep then EmptyString :: Split r sep
      else match Split r sep with
           | h :: t => String c h :: t
           | [] => [String c EmptyString]
           end
  end.

(** [strings.Repeat(s, count)]. *)
Fixpoint Repeat (s : string) (count : nat) : string :=
  match count with
  | O => EmptyString
  | S n => s ++ Repeat s n
  end.

(** The last byte of a string, if it has one. *)
Fixpoint lastByte (s : string) : option ascii :=
  match s with
  | EmptyString => None
  | String c EmptyString => Some c
  | String _ r => lastByte r
  end.

(** [strings.IndexByte(s, c) >= 0]. *)
Fixpoint ContainsByte (s : string) (c : ascii) : bool :=
  match s with
  | EmptyString => false
  | String x r => Ascii.eqb x c || ContainsByte r c
  end.

End Go.

(** ** Values that cross the package boundary *)

Module context.
(** A [context.Context]: the nil interface, the root context, or a context
    derived from a parent (by cancellation, deadline or value; the string
    tells derivations apart).  The client only hands it on. *)
Inductive Context :=
| Nil
| Background
| Derived (parent : Context) (how : string).
End context.

Module json.
(** A value of type [interface{}] that travels as JSON. *)
#[local] Unset Elimination Schemes.
Inductive Value :=
| Null
| Bool (b : bool)
| Number (digits : string)
| Str (s : string)
| Array (elems : list Value)
| Object (members : list (string * Value)).
#[local] Set Elimination Schemes.
End json.

Module io.
(** A response body stream: the bytes it delivers and, when the read
    breaks off, the text of the read error that follows them. *)
Record ReadCloser := { delivered : list byte; failure : option string }.

(** [io.ReadAll]: the bytes read and the read error, if any. *)
Definition ReadAll (r : ReadCloser) : list byte * option string :=
  (delivered r, failure r).
End io.

Module http.
Definition MethodGet : string := "GET".
Definition StatusOK : Z := 200.

(** [http.Client], as far as the package configures it. *)
Record Client := { Timeout : Z }.

Record Request := {
  Ctx : context.Context;
  Method : string;
  URL : string;
  ReqBody : option (list byte);
  ContentType : option string
}.

Record Response := { StatusCode : Z; Body : io.ReadCloser }.
End http.

Module hmac.
(** [hmac.Config] and [hmac.Client] of go-pkg-utils.  The client is opaque
    to this package; it is modelled by the configuration it was built
    from. *)
Record Config := { BaseURL : string; HMACSecret : string; Timeout : Z }.
Record Client := { config : Config }.
End hmac.

(** What the program has done to the outside world: the network
    capabilities it has created and the calls it has made on them, oldest
    first. *)
Inductive Capability :=
| httpCapability (c : http.Client)
| hmacCapability (c : hmac.Client).

Inductive Call :=
| httpDo (c : http.Client) (req : http.Request)
| hmacDoRequest (c : hmac.Client) (method path : string) (body : option json.Value).

Record World := { created : list Capability; calls : list Call }.

Definition emptyWorld : World := {| created := []; calls := [] |}.

(** ** Errors *)

(** [APIError] (identical in the three revisions). *)
Record APIError := { StatusCode : Z; Message : string; Body : string }.

(** Go [error] values that reach a caller of this package: [errors.New] and
    [fmt.Errorf] without [%w], [fmt.Errorf] with [%w], an [*APIError], and
    errors made by other packages (net/http, encoding/json, hmac), which
    cannot hold an [*APIError]. *)
Inductive error :=
| errorString (s : string)
| wrapError (msg : string) (err : error)
| apiError (e : APIError)
| foreignError (text : string).

(** The method [Error] of [APIError]. *)
Definition APIError_Error (e : APIError) : string :=
  if negb (Message e =? "") then
    "mailer service returned status " ++ Go.fmt_d (StatusCode e) ++ ": " ++ Message e
  else
    "mailer service returned status " ++ Go.fmt_d (StatusCode e) ++ ": " ++ Body e.

Definition error_Error (err : error) : string :=
  match err with
  | errorString s => s
  | wrapError msg _ => msg
  | apiError e => APIError_Error e
  | foreignError text => text
  end.

(** [fmt.Errorf("%s: %w", wrapErr, err)]. *)
Definition fmt_Errorf_w (wrapErr : string) (err : error) : error :=
  wrapError (wrapErr ++ ": " ++ error_Error err) err.

(** [errors.As(err, &apiErr)]: the first [*APIError] on the unwrap chain. *)
Fixpoint errors_As_APIError (err : error) : option APIError :=
  match err with
  | apiError e => Some e
  | wrapError _ cause => errors_As_APIError cause
  | errorString _ | foreignError _ => None
  end.

Definition IsAPIError (err : option error) : option APIError * bool :=
  match err with
  | Some e =>
      match errors_As_APIError e with
      | Some apiErr => (Some apiErr, true)
      | None => (None, false)
      end
  | None => (None, false)
  end.

(** The anonymous struct [errorResp] of [parseErrorResponse]. *)
Module errorResp.
Record t := { Message : string; Success : bool; Status : Z; Error : string }.
Definition zero : t := {| Message := ""; Success := false; Status := 0; Error := "" |}.
End errorResp.

(** ** The environment: code outside the package

    The JSON decoders, the request validation of net/http and the two
    transports are not part of the repository.  Their results are arbitrary
    functions of their inputs and of the history of the world.  A decoder
    gets the target's current value and gives back its value after the call
    together with the error text, if it fails. *)
Class Env := {
  json_Unmarshal : list byte -> errorResp.t -> errorResp.t * option string;
  json_Decode : forall T : Type, io.ReadCloser -> T -> T * option string;
  json_Marshal : json.Value -> list byte * option string;
  hmac_ParseJSONResponse : forall T : Type, http.Response -> T -> T * option string;
  http_requestError : context.Context -> string -> string -> option string;
  http_roundTrip : http.Client -> http.Request -> World -> string + http.Response;
  hmac_roundTrip :
    hmac.Client -> string -> string -> option json.Value -> World -> string + http.Response
}.

(** ** Effects: state passing over the world *)

Definition IO (A : Type) : Type := World -> A * World.

Definition ret {A} (a : A) : IO A := fun w => (a, w).

Definition bind {A B} (m : IO A) (k : A -> IO B) : IO B :=
  fun w => let (a, w') := m w in k a w'.

Notation "x <- m ;; k" := (bind m (fun x => k))
  (at level 61, m at next level, right associativity).
Notation "' pat <- m ;; k" := (bind m (fun x => match x with pat => k end))
  (at level 61, pat pattern, m at next level, right associativity).

Section Transports.
Context `{Env}.

(** [http.NewRequestWithContext(ctx, method, url, body)]. *)
Definition http_NewRequestWithContext (ctx : context.Context) (method url : string)
    (body : option (list byte)) : string + http.Request :=
  match http_requestError ctx method url with
  | Some e => inl e
  | None =>
      inr {| http.Ctx := ctx; http.Method := method; http.URL := url;
             http.ReqBody := body; http.ContentType := None |}
  end.

(** [http.NewRequest] uses the background context. *)
Definition http_NewRequest (method url : string) (body : option (list byte))
    : string + http.Request :=
  http_NewRequestWithContext context.Background method url body.

(** [req.Header.Set("Content-Type", v)]. *)
Definition Header_Set_ContentType (req : http.Request) (v : string) : http.Request :=
  {| http.Ctx := http.Ctx req; http.Method := http.Method req; http.URL := http.URL req;
     http.ReqBody := http.ReqBody req; http.ContentType := Some v |}.

(** The method [Do] of [http.Client]: one call on the transport. *)
Definition http_Client_Do (c : http.Client) (req : http.Request)
    : IO (string + http.Response) :=
  fun w => (http_roundTrip c req w,
            {| created := created w; calls := (calls w ++ [httpDo c req])%list |}).

(** The method [DoRequest] of [hmac.Client]: one call on the signing transport. *)
Definition hmac_Client_DoRequest (c : hmac.Client) (method path : string)
    (body : option json.Value) : IO (string + http.Response) :=
  fun w => (hmac_roundTrip c method path body w,
            {| created := created w;
               calls := (calls w ++ [hmacDoRequest c method path body])%list |}).

(** [&http.Client{Timeout: timeout}]. *)
Definition new_http_Client (timeout : Z) : IO http.Client :=
  fun w => let c := {| http.Timeout := timeout |} in
           (c, {| created := (created w ++ [httpCapability c])%list; calls := calls w |}).

(** [hmac.NewClient(config)]. *)
Definition hmac_NewClient (config : hmac.Config) : IO hmac.Client :=
  fun w => let c := {| hmac.config := config |} in
           (c, {| created := (created w ++ [hmacCapability c])%list; calls := calls w |}).

End Transports.

(** ** Code shared by the three revisions (textually the same in each file) *)

Definition apiPathPrefix : string := "/api/v1".

(** [10 * time.Second], in nanoseconds. *)
Definition defaultTimeout : Z := 10 * 1000000000.

Section Shared.
Context `{Env}.

Definition parseErrorResponse (statusCode : Z) (body : list byte) : APIError :=
  let bodyStr := string_of_list_byte body in
  let '(resp, err) := json_Unmarshal body errorResp.zero in
  match err with
  | None =>
      if negb (errorResp.Message resp =? "") || negb (errorResp.Error resp =? "") then
        let errMessage := errorResp.Error resp in
        let errMessage := if errMessage =? "" then errorResp.Message resp else errMessage in
        {| StatusCode := statusCode; Message := errMessage; Body := bodyStr |}
      else
        {| StatusCode := statusCode; Message := bodyStr; Body := bodyStr |}
  | Some _ =>
      {| StatusCode := statusCode; Message := bodyStr; Body := bodyStr |}
  end.

End Shared.

Fixpoint statusIn (code : Z) (codes : list Z) : bool :=
  match codes with
  | [] => false
  | c :: rest => if (code =? c)%Z then true else statusIn code rest
  end.

Definition pathSeg (s : string) : string := Go.PathEscape s.

(** The value a local variable holds after a call that was given its
    address: [after] is what the callee left in the pointee. *)
Definition pointee {T} (after : option T) (before : T) : T :=
  match after with
  | Some v => v
  | None => before
  end.

(** ** Response types (the same structs in the three revisions) *)

Module Pagination.
Record t := {
  Page : Z; PerPage : Z; Total : Z; TotalPages : Z;
  HasNext : bool; HasPrevious : bool;
  NextPage : option Z; PreviousPage : option Z
}.
End Pagination.

Module AttachmentListItem.
Record t := { ID : string; MailID : string; File : string;
              CreatedAt : string; UpdatedAt : string }.
Definition zero : t :=
  {| ID := ""; MailID := ""; File := ""; CreatedAt := ""; UpdatedAt := "" |}.
End AttachmentListItem.

Module MailListItem.
Record t := {
  ID : string; Service : string; Type_ : string; To : string; Subject : string;
  Template : string; Data : list (string * json.Value); Status : string;
  Error : string; Attachments : list AttachmentListItem.t;
  CreatedAt : string; UpdatedAt : string
}.
Definition zero : t :=
  {| ID := ""; Service := ""; Type_ := ""; To := ""; Subject := ""; Template := "";
     Data := []; Status := ""; Error := ""; Attachments := [];
     CreatedAt := ""; UpdatedAt := "" |}.
End MailListItem.

Module TemplateListItem.
Record t := { ID : string; Name : string; Content : string; Description : string;
              IsActive : bool; CreatedAt : string; UpdatedAt : string }.
Definition zero : t :=
  {| ID := ""; Name := ""; Content := ""; Description := ""; IsActive := false;
     CreatedAt := ""; UpdatedAt := "" |}.
End TemplateListItem.

Module ListMailsResponse.
Record t := { Success : bool; Message : string; Status : Z; Timestamp : string;
              Data : list MailListItem.t; Pagination : option Pagination.t }.
Definition zero : t :=
  {| Success := false; Message := ""; Status := 0; Timestamp := "";
     Data := []; Pagination := None |}.
End ListMailsResponse.

Module GetMailResponse.
Record t := { Success : bool; Message : string; Status : Z; Timestamp : string;
              Data : MailListItem.t }.
Definition zero : t :=
  {| Success := false; Message := ""; Status := 0; Timestamp := "";
     Data := MailListItem.zero |}.
End GetMailResponse.

Module ListTemplatesResponse.
Record t := { Success : bool; Message : string; Status : Z; Timestamp : string;
              Data : list TemplateListItem.t; Pagination : option Pagination.t }.
Definition zero : t :=
  {| Success := false; Message := ""; Status := 0; Timestamp := "";
     Data := []; Pagination := None |}.
End ListTemplatesResponse.

Module GetTemplateResponse.
Record t := { Success : bool; Message : string; Status : Z; Timestamp : string;
              Data : TemplateListItem.t }.
Definition zero : t :=
  {| Success := false; Message := ""; Status := 0; Timestamp := "";
     Data := TemplateListItem.zero |}.
End GetTemplateResponse.

Module ListAttachmentsResponse.
Record t := { Success : bool; Message : string; Status : Z; Timestamp : string;
              Data : list AttachmentListItem.t; Pagination : option Pagination.t }.
Definition zero : t :=
  {| Success := false; Message := ""; Status := 0; Timestamp := "";
     Data := []; Pagination := None |}.
End ListAttachmentsResponse.

Module GetAttachmentResponse.
Record t := { Success : bool; Message : string; Status : Z; Timestamp : string;
              Data : AttachmentListItem.t }.
Definition zero : t :=
  {| Success := false; Message := ""; Status := 0; Timestamp := "";
     Data := AttachmentListItem.zero |}.
End GetAttachmentResponse.

(** ** Revision [unnamed/part_001]: plain HTTP, structured list requests *)

Module Part001.

Record Config := { BaseURL : string; Timeout : Z }.
Record Client := { baseURL : string; client : http.Client }.

Module ListMailsRequest.
Record t := { Page : Z; PerPage : Z; Service : string; Type_ : string; Status : string }.
End ListMailsRequest.

Module ListTemplatesRequest.
Record t := { Page : Z; PerPage : Z }.
End ListTemplatesRequest.

Module ListAttachmentsRequest.
Record t := { Page : Z; PerPage : Z; MailID : string }.
End ListAttachmentsRequest.

(** The URL [ListMails] builds in its local [path] before it calls [do]. *)
Definition ListMails_path (c : Client) (req : ListMailsRequest.t) : string :=
  let queryParams : list string := [] in
  let queryParams :=
    if (ListMailsRequest.Page req >? 0)%Z
    then Go.append queryParams ("page=" ++ Go.fmt_d (ListMailsRequest.Page req))
    else queryParams in
  let queryParams :=
    if (ListMailsRequest.PerPage req >? 0)%Z
    then Go.append queryParams ("per_page=" ++ Go.fmt_d (ListMailsRequest.PerPage req))
    else queryParams in
  let queryParams :=
    if negb (ListMailsRequest.Service req =? "")
    then Go.append queryParams ("service=" ++ Go.QueryEscape (ListMailsRequest.Service req))
    else queryParams in
  let queryParams :=
    if negb (ListMailsRequest.Type_ req =? "")
    then Go.append queryParams ("type=" ++ Go.QueryEscape (ListMailsRequest.Type_ req))
    else queryParams in
  let queryParams :=
    if negb (ListMailsRequest.Status req =? "")
    then Go.append queryParams ("status=" ++ Go.QueryEscape (ListMailsRequest.Status req))
    else queryParams in
  let path := baseURL c ++ apiPathPrefix ++ "/mails" in
  if (0 <? List.length queryParams)%nat
  then path ++ "?" ++ Go.Join queryParams "&"
  else path.

Definition ListTemplates_path (c : Client) (req : ListTemplatesRequest.t) : string :=
  let queryParams : list string := [] in
  let queryParams :=
    if (ListTemplatesRequest.Page req >? 0)%Z
    then Go.append queryParams ("page=" ++ Go.fmt_d (ListTemplatesRequest.Page req))
    else queryParams in
  let queryParams :=
    if (ListTemplatesRequest.PerPage req >? 0)%Z
    then Go.append queryParams ("per_page=" ++ Go.fmt_d (ListTemplatesRequest.PerPage req))
    else queryParams in
  let path := baseURL c ++ apiPathPrefix ++ "/templates" in
  if (0 <? List.length queryParams)%nat
  then path ++ "?" ++ Go.Join queryParams "&"
  else path.

Definition ListAttachments_path (c : Client) (req : ListAttachmentsRequest.t) : string :=
  let queryParams : list string := [] in
  let queryParams :=
    if (ListAttachmentsRequest.Page req >? 0)%Z
    then Go.append queryParams ("page=" ++ Go.fmt_d (ListAttachmentsRequest.Page req))
    else queryParams in
  let queryParams :=
    if (ListAttachmentsRequest.PerPage req >? 0)%Z
    then Go.append queryParams ("per_page=" ++ Go.fmt_d (ListAttachmentsRequest.PerPage req))
    else queryParams in
  let queryParams :=
    if negb (ListAttachmentsRequest.MailID req =? "")
    then Go.append queryParams ("mail_id=" ++ Go.QueryEscape (ListAttachmentsRequest.MailID req))
    else queryParams in
  let path := baseURL c ++ apiPathPrefix ++ "/attachments" in
  if (0 <? List.length queryParams)%nat
  then path ++ "?" ++ Go.Join queryParams "&"
  else path.

(** The URL of a [...WithQuery] call. *)
Definition rawQuery_path (c : Client) (resource queryString : string) : string :=
  let path := baseURL c ++ apiPathPrefix ++ resource in
  if negb (queryString =? "") then path ++ "?" ++ queryString else path.

Section Operations.
Context `{Env}.

(** [do]: the first component is what the call leaves in [*result]
    ([None] when [result] is nil). *)
Definition do {T : Type} (c : Client) (ctx : context.Context) (method path : string)
    (successStatuses : list Z) (result : option T) (wrapErr : string)
    : IO (option T * option error) :=
  match http_NewRequestWithContext ctx method path None with
  | inl err => ret (result, Some (fmt_Errorf_w wrapErr (foreignError err)))
  | inr req =>
      r <- http_Client_Do (client c) req ;;
      match r with
      | inl err => ret (result, Some (fmt_Errorf_w wrapErr (foreignError err)))
      | inr resp =>
          if negb (statusIn (http.StatusCode resp) successStatuses) then
            let '(respBody, _) := io.ReadAll (http.Body resp) in
            ret (result, Some (apiError (parseErrorResponse (http.StatusCode resp) respBody)))
          else
            match result with
            | Some target =>
                let '(target', derr) := json_Decode (http.Body resp) target in
                match derr with
                | Some err =>
                    ret (Some target', Some (fmt_Errorf_w wrapErr (foreignError err)))
                | None => ret (Some target', None)
                end
            | None => ret (None, None)
            end
      end
  end.

Definition NewClient (config : Config) : IO (option Client * option error) :=
  if BaseURL config =? "" then
    ret (None, Some (errorString "base URL is required"))
  else
    let baseURL := Go.TrimRight (BaseURL config) "/" in
    let timeout := Timeout config in
    let timeout := if (timeout =? 0)%Z then defaultTimeout else timeout in
    httpClient <- new_http_Client timeout ;;
    ret (Some {| baseURL := baseURL; client := httpClient |}, None).

Definition ListMails (c : Client) (ctx : context.Context) (req : ListMailsRequest.t)
    : IO (option ListMailsResponse.t * option error) :=
  let path := ListMails_path c req in
  let result := ListMailsResponse.zero in
  ' (after, err) <- do c ctx http.MethodGet path [http.StatusOK] (Some result)
                       "failed to list mails" ;;
  match err with
  | Some e => ret (None, Some e)
  | None => ret (Some (pointee after result), None)
  end.

Definition ListMailsWithQuery (c : Client) (ctx : context.Context) (queryString : string)
    : IO (option ListMailsResponse.t * option error) :=
  let path := rawQuery_path c "/mails" queryString in
  let result := ListMailsResponse.zero in
  ' (after, err) <- do c ctx http.MethodGet path [http.StatusOK] (Some result)
                       "failed to list mails" ;;
  match err with
  | Some e => ret (None, Some e)
  | None => ret (Some (pointee after result), None)
  end.

Definition GetMail (c : Client) (ctx : context.Context) (id : string)
    : IO (option GetMailResponse.t * option error) :=
  if id =? "" then ret (None, Some (errorString "mail id is required"))
  else
    let path := baseURL c ++ apiPathPrefix ++ "/mails/" ++ pathSeg id in
    let result := GetMailResponse.zero in
    ' (after, err) <- do c ctx http.MethodGet path [http.StatusOK] (Some result)
                         "failed to get mail" ;;
    match err with
    | Some e => ret (None, Some e)
    | None => ret (Some (pointee after result), None)
    end.

Definition ListTemplates (c : Client) (ctx : context.Context)
    (req : ListTemplatesRequest.t)
    : IO (option ListTemplatesResponse.t * option error) :=
  let path := ListTemplates_path c req in
  let result := ListTemplatesResponse.zero in
  ' (after, err) <- do c ctx http.MethodGet path [http.StatusOK] (Some result)
                       "failed to list templates" ;;
  match err with
  | Some e => ret (None, Some e)
  | None => ret (Some (pointee after result), None)
  end.

Definition ListTemplatesWithQuery (c : Client) (ctx : context.Context)
    (queryString : string)
    : IO (option ListTemplatesResponse.t * option error) :=
  let path := rawQuery_path c "/templates" queryString in
  let result := ListTemplatesResponse.zero in
  ' (after, err) <- do c ctx http.MethodGet path [http.StatusOK] (Some result)
                       "failed to list templates" ;;
  match err with
  | Some e => ret (None, Some e)
  | None => ret (Some (pointee after result), None)
  end.

Definition GetTemplate (c : Client) (ctx : context.Context) (id : string)
    : IO (option GetTemplateResponse.t * option error) :=
  if id =? "" then ret (None, Some (errorString "template id is required"))
  else
    let path := baseURL c ++ apiPathPrefix ++ "/templates/" ++ pathSeg id in
    let result := GetTemplateResponse.zero in
    ' (after, err) <- do c ctx http.MethodGet path [http.StatusOK] (Some result)
                         "failed to get template" ;;
    match err with
    | Some e => ret (None, Some e)
    | None => ret (Some (pointee after result), None)
    end.

Definition ListAttachments (c : Client) (ctx : context.Context)
    (req : ListAttachmentsRequest.t)
    : IO (option ListAttachmentsResponse.t * option error) :=
  let path := ListAttachments_path c req in
  let result := ListAttachmentsResponse.zero in
  ' (after, err) <- do c ctx http.MethodGet path [http.StatusOK] (Some result)
                       "failed to list attachments" ;;
  match err with
  | Some e => ret (None, Some e)
  | None => ret (Some (pointee after result), None)
  end.

Definition ListAttachmentsWithQuery (c : Client) (ctx : context.Context)
    (queryString : string)
    : IO (option ListAttachmentsResponse.t * option error) :=
  let path := rawQuery_path c "/attachments" queryString in
  let result := ListAttachmentsResponse.zero in
  ' (after, err) <- do c ctx http.MethodGet path [http.StatusOK] (Some result)
                       "failed to list attachments" ;;
  match err with
  | Some e => ret (None, Some e)
  | None => ret (Some (pointee after result), None)
  end.

Definition GetAttachment (c : Client) (ctx : context.Context) (id : string)
    : IO (option GetAttachmentResponse.t * option error) :=
  if id =? "" then ret (None, Some (errorString "attachment id is required"))
  else
    let path := baseURL c ++ apiPathPrefix ++ "/attachments/" ++ pathSeg id in
    let result := GetAttachmentResponse.zero in
    ' (after, err) <- do c ctx http.MethodGet path [http.StatusOK] (Some result)
                         "failed to get attachment" ;;
    match err with
    | Some e => ret (None, Some e)
    | None => ret (Some (pointee after result), None)
    end.

End Operations.

End Part001.

(** ** Revision [unnamed/part_000]: plain HTTP, raw query strings

    The operations take a context and do not use it. *)

Module Part000.

Record Config := { BaseURL : string; Timeout : Z }.
Record Client := { baseURL : string; httpClient : http.Client }.

Section Operations.
Context `{Env}.

Definition doRequest (c : Client) (method path : string) (body : option json.Value)
    : IO (error + http.Response) :=
  let fullURL := baseURL c ++ path in
  let marshalled : error + option (list byte) :=
    match body with
    | Some b =>
        let '(raw, err) := json_Marshal b in
        match err with
        | Some e => inl (fmt_Errorf_w "marshal body" (foreignError e))
        | None => inr (Some raw)
        end
    | None => inr None
    end in
  match marshalled with
  | inl err => ret (inl err)
  | inr bodyReader =>
      match http_NewRequest method fullURL bodyReader with
      | inl err => ret (inl (foreignError err))
      | inr req =>
          let req :=
            match body with
            | Some _ => Header_Set_ContentType req "application/json"
            | None => req
            end in
          r <- http_Client_Do (httpClient c) req ;;
          match r with
          | inl err => ret (inl (foreignError err))
          | inr resp => ret (inr resp)
          end
      end
  end.

Definition do {T : Type} (c : Client) (method path : string) (body : option json.Value)
    (successStatuses : list Z) (result : option T) (wrapErr : string)
    : IO (option T * option error) :=
  r <- doRequest c method path body ;;
  match r with
  | inl err => ret (result, Some (fmt_Errorf_w wrapErr err))
  | inr resp =>
      if negb (statusIn (http.StatusCode resp) successStatuses) then
        let '(respBody, _) := io.ReadAll (http.Body resp) in
        ret (result, Some (apiError (parseErrorResponse (http.StatusCode resp) respBody)))
      else
        match result with
        | Some target =>
            let '(target', derr) := json_Decode (http.Body resp) target in
            match derr with
            | Some err =>
                ret (Some target', Some (fmt_Errorf_w wrapErr (foreignError err)))
            | None => ret (Some target', None)
            end
        | None => ret (None, None)
        end
  end.

Definition NewClient (config : Config) : IO (option Client * option error) :=
  if BaseURL config =? "" then
    ret (None, Some (errorString "base URL is required"))
  else
    let baseURL := Go.TrimRight (BaseURL config) "/" in
    let timeout := Timeout config in
    let timeout := if (timeout =? 0)%Z then defaultTimeout else timeout in
    httpClient <- new_http_Client timeout ;;
    ret (Some {| baseURL := baseURL; httpClient := httpClient |}, None).

Definition ListMails (c : Client) (ctx : context.Context) (queryString : string)
    : IO (option ListMailsResponse.t * option error) :=
  let path := apiPathPrefix ++ "/mails" in
  let path := if negb (queryString =? "") then path ++ "?" ++ queryString else path in
  let result := ListMailsResponse.zero in
  ' (after, err) <- do c http.MethodGet path None [http.StatusOK] (Some result)
                       "failed to list mails" ;;
  match err with
  | Some e => ret (None, Some e)
  | None => ret (Some (pointee after result), None)
  end.

Definition GetMail (c : Client) (ctx : context.Context) (id : string)
    : IO (option GetMailResponse.t * option error) :=
  if id =? "" then ret (None, Some (errorString "mail id is required"))
  else
    let path := apiPathPrefix ++ "/mails/" ++ pathSeg id in
    let result := GetMailResponse.zero in
    ' (after, err) <- do c http.MethodGet path None [http.StatusOK] (Some result)
                         "failed to get mail" ;;
    match err with
    | Some e => ret (None, Some e)
    | None => ret (Some (pointee after result), None)
    end.

Definition ListTemplates (c : Client) (ctx : context.Context) (queryString : string)
    : IO (option ListTemplatesResponse.t * option error) :=
  let path := apiPathPrefix ++ "/templates" in
  let path := if negb (queryString =? "") then path ++ "?" ++ queryString else path in
  let result := ListTemplatesResponse.zero in
  ' (after, err) <- do c http.MethodGet path None [http.StatusOK] (Some result)
                       "failed to list templates" ;;
  match err with
  | Some e => ret (None, Some e)
  | None => ret (Some (pointee after result), None)
  end.

Definition GetTemplate (c : Client) (ctx : context.Context) (id : string)
    : IO (option GetTemplateResponse.t * option error) :=
  if id =? "" then ret (None, Some (errorString "template id is required"))
  else
    let path := apiPathPrefix ++ "/templates/" ++ pathSeg id in
    let result := GetTemplateResponse.zero in
    ' (after, err) <- do c http.MethodGet path None [http.StatusOK] (Some result)
                         "failed to get template" ;;
    match err with
    | Some e => ret (None, Some e)
    | None => ret (Some (pointee after result), None)
    end.

Definition ListAttachments (c : Client) (ctx : context.Context) (queryString : string)
    : IO (option ListAttachmentsResponse.t * option error) :=
  let path := apiPathPrefix ++ "/attachments" in
  let path := if negb (queryString =? "") then path ++ "?" ++ queryString else path in
  let result := ListAttachmentsResponse.zero in
  ' (after, err) <- do c http.MethodGet path None [http.StatusOK] (Some result)
                       "failed to list attachments" ;;
  match err with
  | Some e => ret (None, Some e)
  | None => ret (Some (pointee after result), None)
  end.

Definition GetAttachment (c : Client) (ctx : context.Context) (id : string)
    : IO (option GetAttachmentResponse.t * option error) :=
  if id =? "" then ret (None, Some (errorString "attachment id is required"))
  else
    let path := apiPathPrefix ++ "/attachments/" ++ pathSeg id in
    let result := GetAttachmentResponse.zero in
    ' (after, err) <- do c http.MethodGet path None [http.StatusOK] (Some result)
                         "failed to get attachment" ;;
    match err with
    | Some e => ret (None, Some e)
    | None => ret (Some (pointee after result), None)
    end.

End Operations.

End Part000.

(** ** Revision [client.go]: requests go through the HMAC client

    The operations take a context and do not use it. *)

Module ClientGo.

Record Config := { BaseURL : string; HMACSecret : string; Timeout : Z }.
Record Client := { client : hmac.Client }.

Section Operations.
Context `{Env}.

Definition do {T : Type} (c : Client) (method path : string) (body : option json.Value)
    (successStatuses : list Z) (result : option T) (wrapErr : string)
    : IO (option T * option error) :=
  r <- hmac_Client_DoRequest (client c) method path body ;;
  match r with
  | inl err => ret (result, Some (fmt_Errorf_w wrapErr (foreignError err)))
  | inr resp =>
      if negb (statusIn (http.StatusCode resp) successStatuses) then
        let '(respBody, _) := io.ReadAll (http.Body resp) in
        ret (result, Some (apiError (parseErrorResponse (http.StatusCode resp) respBody)))
      else
        match result with
        | Some target =>
            let '(target', derr) := hmac_ParseJSONResponse resp target in
            match derr with
            | Some err =>
                ret (Some target', Some (fmt_Errorf_w wrapErr (foreignError err)))
            | None => ret (Some target', None)
            end
        | None => ret (None, None)
        end
  end.

Definition NewClient (config : Config) : IO (option Client * option error) :=
  if BaseURL config =? "" then
    ret (None, Some (errorString "base URL is required"))
  else if HMACSecret config =? "" then
    ret (None, Some (errorString "HMAC secret is required"))
  else
    let baseURL := Go.TrimRight (BaseURL config) "/" in
    let timeout := Timeout config in
    let timeout := if (timeout =? 0)%Z then defaultTimeout else timeout in
    hmacClient <- hmac_NewClient {| hmac.BaseURL := baseURL;
                                    hmac.HMACSecret := HMACSecret config;
                                    hmac.Timeout := timeout |} ;;
    ret (Some {| client := hmacClient |}, None).

Definition ListMails (c : Client) (ctx : context.Context) (queryString : string)
    : IO (option ListMailsResponse.t * option error) :=
  let path := apiPathPrefix ++ "/mails" in
  let path := if negb (queryString =? "") then path ++ "?" ++ queryString else path in
  let result := ListMailsResponse.zero in
  ' (after, err) <- do c http.MethodGet path None [http.StatusOK] (Some result)
                       "failed to list mails" ;;
  match err with
  | Some e => ret (None, Some e)
  | None => ret (Some (pointee after result), None)
  end.

Definition GetMail (c : Client) (ctx : context.Context) (id : string)
    : IO (option GetMailResponse.t * option error) :=
  if id =? "" then ret (None, Some (errorString "mail id is required"))
  else
    let path := apiPathPrefix ++ "/mails/" ++ pathSeg id in
    let result := GetMailResponse.zero in
    ' (after, err) <- do c http.MethodGet path None [http.StatusOK] (Some result)
                         "failed to get mail" ;;
    match err with
    | Some e => ret (None, Some e)
    | None => ret (Some (pointee after result), None)
    end.

Definition ListTemplates (c : Client) (ctx : context.Context) (queryString : string)
    : IO (option ListTemplatesResponse.t * option error) :=
  let path := apiPathPrefix ++ "/templates" in
  let path := if negb (queryString =? "") then path ++ "?" ++ queryString else path in
  let result := ListTemplatesResponse.zero in
  ' (after, err) <- do c http.MethodGet path None [http.StatusOK] (Some result)
                       "failed to list templates" ;;
  match err with
  | Some e => ret (None, Some e)
  | None => ret (Some (pointee after result), None)
  end.

Definition GetTemplate (c : Client) (ctx : context.Context) (id : string)
    : IO (option GetTemplateResponse.t * option error) :=
  if id =? "" then ret (None, Some (errorString "template id is required"))
  else
    let path := apiPathPrefix ++ "/templates/" ++ pathSeg id in
    let result := GetTemplateResponse.zero in
    ' (after, err) <- do c http.MethodGet path None [http.StatusOK] (Some result)
                         "failed to get template" ;;
    match err with
    | Some e => ret (None, Some e)
    | None => ret (Some (pointee after result), None)
    end.

Definition ListAttachments (c : Client) (ctx : context.Context) (queryString : string)
    : IO (option ListAttachmentsResponse.t * option error) :=
  let path := apiPathPrefix ++ "/attachments" in
  let path := if negb (queryString =? "") then path ++ "?" ++ queryString else path in
  let result := ListAttachmentsResponse.zero in
  ' (after, err) <- do c http.MethodGet path None [http.StatusOK] (Some result)
                       "failed to list attachments" ;;
  match err with
  | Some e => ret (None, Some e)
  | None => ret (Some (pointee after result), None)
  end.

Definition GetAttachment (c : Client) (ctx : context.Context) (id : string)
    : IO (option GetAttachmentResponse.t * option error) :=
  if id =? "" then ret (None, Some (errorString "attachment id is required"))
  else
    let path := apiPathPrefix ++ "/attachments/" ++ pathSeg id in
    let result := GetAttachmentResponse.zero in
    ' (after, err) <- do c http.MethodGet path None [http.StatusOK] (Some result)
                         "failed to get attachment" ;;
    match err with
    | Some e => ret (None, Some e)
    | None => ret (Some (pointee after result), None)
    end.

End Operations.

End ClientGo.

(** ** Vocabulary of the properties *)

(** The answer of the environment to a call made in world [w]. *)
Definition respond `{Env} (call : Call) (w : World) : string + http.Response :=
  match call with
  | httpDo c req => http_roundTrip c req w
  | hmacDoRequest c method path body => hmac_roundTrip c method path body w
  end.

(** Where a call goes: the URL of an HTTP request, the path handed to the
    HMAC client. *)
Definition callTarget (call : Call) : string :=
  match call with
  | httpDo _ req => http.URL req
  | hmacDoRequest _ _ path _ => path
  end.

(** The request of a read: method GET, no body, no content type. *)
Definition getRequest (ctx : context.Context) (url : string) : http.Request :=
  {| http.Ctx := ctx; http.Method := "GET"; http.URL := url;
     http.ReqBody := None; http.ContentType := None |}.

(** The bytes that would end or split a path segment. *)
Definition segmentBreakers : list ascii := ["/"; " "; "?"; "#"]%char.

(** Two clients of one revision send the same requests: whatever is done
    with one of them, in whatever world, the other gives the same results
    and leaves the same calls behind. *)
Definition SameRequests {C : Type} (c1 c2 : C) : Prop :=
  forall (A : Type) (op : C -> IO A) (w : World), op c1 w = op c2 w.

(** Exactly one of the result pointer and the error is non-nil. *)
Definition exactlyOne {A} (r : option A * option error) : bool :=
  match r with
  | (Some _, None) => true
  | (None, Some _) => true
  | (Some _, Some _) => false
  | (None, None) => false
  end.

(** The request that reaches the HTTP client for a method, a URL and a
    body: the content type is there for a body only. *)
Definition requestOf (ctx : context.Context) (method url : string)
    (body : option (list byte)) : http.Request :=
  {| http.Ctx := ctx; http.Method := method; http.URL := url; http.ReqBody := body;
     http.ContentType := match body with
                         | Some _ => Some "application/json"
                         | None => None
                         end |}.

(** The call of a read: on the HMAC client of [client.go], on an HTTP
    client. *)
Definition hmacGet (c : ClientGo.Client) (path : string) : Call :=
  hmacDoRequest (ClientGo.client c) "GET" path None.

Definition httpGet (client : http.Client) (ctx : context.Context) (url : string) : Call :=
  httpDo client (getRequest ctx url).

(** net/http builds the request of the call without an error (the HMAC
    client has no such step in this package). *)
Definition requestAccepted `{Env} (call : Call) : Prop :=
  match call with
  | httpDo _ req => http_requestError (http.Ctx req) (http.Method req) (http.URL req) = None
  | hmacDoRequest _ _ _ _ => True
  end.

(** The world after [call] has been made in [w]. *)
Definition afterCall (w : World) (call : Call) : World :=
  {| created := created w; calls := (calls w ++ [call])%list |}.


(** The decoder of the plain revisions reads the body stream. *)
Definition decodeBody `{Env} {T : Type} (resp : http.Response) (target : T)
    : T * option string :=
  json_Decode (http.Body resp) target.

(** A run [op] of [do], whose call is [call] and whose result target holds
    [result], keeps the status and the body: in every world where the
    request is accepted and the transport answers the call with a status
    outside [accepted], [op] makes exactly that call, leaves the target as
    it was, and returns an [APIError] that carries the status received and,
    byte for byte, the body read. *)
Definition RetainsStatusAndBody `{Env} {T : Type} (call : Call) (accepted : list Z)
    (result : option T) (op : IO (option T * option error)) : Prop :=
  forall (w : World) (resp : http.Response),
    requestAccepted call ->
    respond call w = inr resp ->
    statusIn (http.StatusCode resp) accepted = false ->
    exists e : APIError,
      op w = ((result, Some (apiError e)), afterCall w call)
      /\ IsAPIError (Some (apiError e)) = (Some e, true)
      /\ StatusCode e = http.StatusCode resp
      /\ list_byte_of_string (Body e) = io.delivered (http.Body resp).

(** *** The message of an error response, in the words of the specification *)

(** A field of the error body: there when the body parses and the field is
    not empty. *)
Definition parsedField `{Env} (field : errorResp.t -> string) (body : list byte)
    : option string :=
  match json_Unmarshal body errorResp.zero with
  | (resp, None) => if field resp =? "" then None else Some (field resp)
  | (_, Some _) => None
  end.

(** The [error] field, else the [message] field, else the raw body. *)
Definition preferredMessage `{Env} (body : list byte) : string :=
  match parsedField errorResp.Error body with
  | Some e => e
  | None =>
      match parsedField errorResp.Message body with
      | Some m => m
      | None => string_of_list_byte body
      end
  end.

(** The three error bodies the specification names. *)
Definition quote : string := String (ascii_of_nat 34) EmptyString.
Definition quoted (s : string) : string := quote ++ s ++ quote.

Definition body_error_and_message : list byte :=
  list_byte_of_string
    ("{" ++ quoted "error" ++ ":" ++ quoted "X" ++ "," ++ quoted "message" ++ ":"
         ++ quoted "Y" ++ "}").
Definition body_message_only : list byte :=
  list_byte_of_string ("{" ++ quoted "message" ++ ":" ++ quoted "Y" ++ "}").
Definition body_unparseable : list byte := list_byte_of_string "oops".

(** *** The query string of [ListMails], in the words of the specification *)

Inductive FilterValue :=
| NumFilter (n : Z)
| StrFilter (s : string).

(** The filters of a [ListMailsRequest] in the fixed order of the query. *)
Definition mailFilters (req : Part001.ListMailsRequest.t) : list (string * FilterValue) :=
  [ ("page", NumFilter (Part001.ListMailsRequest.Page req));
    ("per_page", NumFilter (Part001.ListMailsRequest.PerPage req));
    ("service", StrFilter (Part001.ListMailsRequest.Service req));
    ("type", StrFilter (Part001.ListMailsRequest.Type_ req));
    ("status", StrFilter (Part001.ListMailsRequest.Status req)) ].

(** A field left at its zero value: 0 for a number, the empty string. *)
Definition atZeroValue (v : FilterValue) : bool :=
  match v with
  | NumFilter n => (n =? 0)%Z
  | StrFilter s => s =? ""
  end.

(** A field that filters: a positive number, a non-empty string. *)
Definition filtersOn (v : FilterValue) : bool :=
  match v with
  | NumFilter n => (0 <? n)%Z
  | StrFilter s => negb (s =? "")
  end.

Definition renderParam (kv : string * FilterValue) : string :=
  match snd kv with
  | NumFilter n => fst kv ++ "=" ++ Go.fmt_d n
  | StrFilter s => fst kv ++ "=" ++ Go.QueryEscape s
  end.

Definition queryOf (keep : FilterValue -> bool) (fields : list (string * FilterValue))
    : list string :=
  map renderParam (filter (fun kv => keep (snd kv)) fields).

Definition withQuery (path : string) (params : list string) : string :=
  match params with
  | [] => path
  | _ :: _ => path ++ "?" ++ Go.Join params "&"
  end.

(** The path as the claim words it: a parameter for every field that is not
    at its zero value. *)
Definition ListMails_path_claimed (c : Part001.Client) (req : Part001.ListMailsRequest.t)
    : string :=
  withQuery (Part001.baseURL c ++ "/api/v1/mails")
            (queryOf (fun v => negb (atZeroValue v)) (mailFilters req)).

(** The path with a parameter for every field that filters. *)
Definition ListMails_path_filtering (c : Part001.Client) (req : Part001.ListMailsRequest.t)
    : string :=
  withQuery (Part001.baseURL c ++ "/api/v1/mails") (queryOf filtersOn (mailFilters req)).

(** ** A concrete environment, to run the client on examples *)

Module Demo.

(** A decoder that knows the two well-formed bodies above and the empty
    object, and rejects everything else. *)
Definition Unmarshal (body : list byte) (target : errorResp.t)
    : errorResp.t * option string :=
  if list_eq_dec Byte.byte_eq_dec body body_error_and_message then
    ({| errorResp.Message := "Y"; errorResp.Success := errorResp.Success target;
        errorResp.Status := errorResp.Status target; errorResp.Error := "X" |}, None)
  else if list_eq_dec Byte.byte_eq_dec body body_message_only then
    ({| errorResp.Message := "Y"; errorResp.Success := errorResp.Success target;
        errorResp.Status := errorResp.Status target;
        errorResp.Error := errorResp.Error target |}, None)
  else if string_of_list_byte body =? "{}" then (target, None)
  else (target, Some "invalid character 'o' looking for beginning of value").

Definition Decode (T : Type) (body : io.ReadCloser) (target : T) : T * option string :=
  match io.failure body with
  | Some e => (target, Some e)
  | None =>
      if string_of_list_byte (io.delivered body) =? "{}" then (target, None)
      else (target, Some "unexpected end of JSON input")
  end.

Definition bodyOf (bytes : list byte) : io.ReadCloser :=
  {| io.delivered := bytes; io.failure := None |}.

(** A server that knows no mail called [gone], answers [/broken] with a
    body that is no JSON, and everything else with an empty object. *)
Definition serve (target : string) : string + http.Response :=
  if (target =? "http://h:1/api/v1/mails/gone") || (target =? "/api/v1/mails/gone") then
    inr {| http.StatusCode := 404; http.Body := bodyOf body_message_only |}
  else if (target =? "http://h:1/api/v1/mails/broken") || (target =? "/api/v1/mails/broken")
  then inr {| http.StatusCode := 200; http.Body := bodyOf [] |}
  else inr {| http.StatusCode := 200; http.Body := bodyOf (list_byte_of_string "{}") |}.

#[export] Instance env : Env := {|
  json_Unmarshal := Unmarshal;
  json_Decode := Decode;
  json_Marshal := fun _ => (list_byte_of_string "{}", None);
  hmac_ParseJSONResponse := fun T resp target => Decode (http.Body resp) target;
  http_requestError := fun ctx _ _ =>
    match ctx with
    | context.Nil => Some "net/http: nil Context"
    | _ => None
    end;
  http_roundTrip := fun _ req _ => serve (http.URL req);
  hmac_roundTrip := fun _ _ path _ _ => serve path
|}.

(** A request whose page number is negative. *)
Definition negativePage : Part001.ListMailsRequest.t :=
  {| Part001.ListMailsRequest.Page := -1; Part001.ListMailsRequest.PerPage := 0;
     Part001.ListMailsRequest.Service := ""; Part001.ListMailsRequest.Type_ := "";
     Part001.ListMailsRequest.Status := "" |}.

Definition plainClient : Part001.Client :=
  {| Part001.baseURL := "http://h:1"; Part001.client := {| http.Timeout := defaultTimeout |} |}.

Definition plainClient0 : Part000.Client :=
  {| Part000.baseURL := "http://h:1";
     Part000.httpClient := {| http.Timeout := defaultTimeout |} |}.

Definition hmacClient : ClientGo.Client :=
  {| ClientGo.client :=
       {| hmac.config := {| hmac.BaseURL := "http://h:1"; hmac.HMACSecret := "s3cret";
                            hmac.Timeout := defaultTimeout |} |} |}.

End Demo.

(** ** Vocabulary of the further properties *)

(** An error wrapped by [fmt.Errorf] with [%w] under each of the prefixes,
    the first prefix outermost. *)
Definition wrapAll (prefixes : list string) (err : error) : error :=
  fold_right fmt_Errorf_w err prefixes.

(** Every call that [op] adds to the log satisfies [P]. *)
Definition OnlySends {A : Type} (P : Call -> Prop) (op : IO A) : Prop :=
  forall (w : World) (call : Call),
    calls (snd (op w)) = (calls w ++ [call])%list -> P call.

(** A read: method GET and no body; over HTTP also the context [ctx] and no
    content type. *)
Definition bodylessGet (ctx : context.Context) (call : Call) : Prop :=
  match call with
  | httpDo _ req =>
      http.Method req = "GET" /\ http.ReqBody req = None
      /\ http.ContentType req = None /\ http.Ctx req = ctx
  | hmacDoRequest _ method _ body => method = "GET" /\ body = None
  end.

(** [op] leaves the capabilities alone and makes no call or one call. *)
Definition AtMostOneCall {A : Type} (op : IO A) : Prop :=
  forall w : World,
    created (snd (op w)) = created w
    /\ (calls (snd (op w)) = calls w
        \/ exists call, calls (snd (op w)) = (calls w ++ [call])%list).

(** An [APIError] from [op] means that the remote side answered and
    rejected: a call was made, the transport delivered a response, its
    status is not 200, and the error carries that status and the body. *)
Definition APIErrorMeansRejected `{Env} {T : Type} (op : IO (option T * option error))
    : Prop :=
  forall (w : World) (e : APIError),
    IsAPIError (snd (fst (op w))) = (Some e, true) ->
    exists call resp,
      calls (snd (op w)) = (calls w ++ [call])%list
      /\ respond call w = inr resp
      /\ http.StatusCode resp <> 200
      /\ StatusCode e = http.StatusCode resp
      /\ list_byte_of_string (Body e) = io.delivered (http.Body resp).

(** When the request of [call] is accepted and the transport fails on the
    call, [op] makes exactly that call, gives no result, and returns the
    transport's error under the prefix [wrapErr]. *)
Definition TransportFailureWrapped `{Env} {T : Type} (call : Call) (wrapErr : string)
    (op : IO (option T * option error)) : Prop :=
  forall (w : World) (e : string),
    requestAccepted call ->
    respond call w = inl e ->
    op w = ((None, Some (wrapError (wrapErr ++ ": " ++ e) (foreignError e))),
            afterCall w call).

(** When net/http refuses to build the request for [url], [op] gives no
    result and that error under the prefix [wrapErr], and the world stays as
    it was. *)
Definition RefusedBeforeSending `{Env} {T : Type} (ctx : context.Context)
    (url wrapErr : string) (op : IO (option T * option error)) : Prop :=
  forall (w : World) (e : string),
    http_requestError ctx "GET" url = Some e ->
    op w = ((None, Some (wrapError (wrapErr ++ ": " ++ e) (foreignError e))), w).

(** The path of a raw-query list call of [client.go] and [part_000]. *)
Definition rawQueryPath (resource queryString : string) : string :=
  if queryString =? "" then apiPathPrefix ++ resource
  else (apiPathPrefix ++ resource) ++ "?" ++ queryString.

(** The filters of the two other structured requests, in query order. *)
Definition templateFilters (req : Part001.ListTemplatesRequest.t)
    : list (string * FilterValue) :=
  [ ("page", NumFilter (Part001.ListTemplatesRequest.Page req));
    ("per_page", NumFilter (Part001.ListTemplatesRequest.PerPage req)) ].

Definition attachmentFilters (req : Part001.ListAttachmentsRequest.t)
    : list (string * FilterValue) :=
  [ ("page", NumFilter (Part001.ListAttachmentsRequest.Page req));
    ("per_page", NumFilter (Part001.ListAttachmentsRequest.PerPage req));
    ("mail_id", StrFilter (Part001.ListAttachmentsRequest.MailID req)) ].

(** The query string made of the fields that filter. *)
Definition builtQuery (fields : list (string * FilterValue)) : string :=
  Go.Join (queryOf filtersOn fields) "&".

(** The value of a parameter as it stands in the query. *)
Definition renderValue (v : FilterValue) : string :=
  match v with
  | NumFilter n => Go.fmt_d n
  | StrFilter s => Go.QueryEscape s
  end.

(** The bytes that would end or split a query parameter. *)
Definition queryBreakers : list ascii := ["&"; "="; "#"; "?"; " "; "/"]%char.

(** A client of [part_000] and a client of [part_001] with the same base URL
    and the same HTTP client. *)
Definition sameSetup (c0 : Part000.Client) (c1 : Part001.Client) : Prop :=
  Part000.baseURL c0 = Part001.baseURL c1 /\ Part000.httpClient c0 = Part001.client c1.

(** The names of the query parameters hold no separator. *)
Definition plainKeys (fields : list (string * FilterValue)) : Prop :=
  Forall (fun kv => Go.ContainsByte (fst kv) "&" = false
                    /\ Go.ContainsByte (fst kv) "=" = false) fields.

(** The query built from [fields] splits back into its parameters: at [&]
    into one piece for each field that filters, and each piece at [=] into
    the name and the value as rendered. *)
Definition SplitsIntoParameters (fields : list (string * FilterValue)) : Prop :=
  (queryOf filtersOn fields <> [] ->
   Go.Split (builtQuery fields) "&" = queryOf filtersOn fields)
  /\ map (fun p => Go.Split p "=") (queryOf filtersOn fields)
     = map (fun kv => [fst kv; renderValue (snd kv)])
           (filter (fun kv => filtersOn (snd kv)) fields).

(** ** An environment where nothing works, to run the failure paths *)

Module Outage.

#[export] Instance env : Env := {|
  json_Unmarshal := fun _ target => (target, Some "unexpected end of JSON input");
  json_Decode := fun T _ target => (target, Some "unexpected end of JSON input");
  json_Marshal := fun _ => ([], Some "json: unsupported type");
  hmac_ParseJSONResponse := fun T _ target => (target, Some "unexpected end of JSON input");
  http_requestError := fun _ _ _ => None;
  http_roundTrip := fun _ _ _ => inl "connection refused";
  hmac_roundTrip := fun _ _ _ _ _ => inl "connection refused"
|}.

End Outage.

(** * Properties *)

(** ** The library models on examples *)

Example TrimRight_strips_all_trailing_slashes :
  Go.TrimRight "http://h:1///" "/" = "http://h:1"
  /\ Go.TrimRight "/a/b" "/" = "/a/b"
  /\ Go.TrimRight "///" "/" = "".
Proof. repeat split. Qed.

Example fmt_d_prints_decimal :
  Go.fmt_d 50 = "50" /\ Go.fmt_d 0 = "0" /\ Go.fmt_d (-5) = "-5".
Proof. repeat split. Qed.

Example PathEscape_examples :
  Go.PathEscape "a/b c?d#e%" = "a%2Fb%20c%3Fd%23e%25"
  /\ Go.PathEscape "$&+:=@;," = "$&+:=@%3B%2C"
  /\ Go.PathEscape "mail-uuid_1.~" = "mail-uuid_1.~".
Proof. repeat split. Qed.

Example PathUnescape_examples :
  Go.PathUnescape "a%2Fb%20c" = Some "a/b c"
  /\ Go.PathUnescape "a+b" = Some "a+b"
  /\ Go.PathUnescape "100%" = None
  /\ Go.PathUnescape "%zz" = None.
Proof. repeat split. Qed.

Example QueryEscape_examples :
  Go.QueryEscape "a/b c&d=~" = "a%2Fb+c%26d%3D~"
  /\ Go.QueryEscape "sent" = "sent".
Proof. repeat split. Qed.

Example Split_examples :
  Go.Split "/api/v1" "/" = [""; "api"; "v1"] /\ Go.Split "" "/" = [""]
  /\ Go.Split "a/" "/" = ["a"; ""].
Proof. repeat split. Qed.

Example Error_of_APIError :
  error_Error (apiError {| StatusCode := 404; Message := "Y"; Body := "raw" |})
  = "mailer service returned status 404: Y"
  /\ error_Error (apiError {| StatusCode := 500; Message := ""; Body := "raw" |})
     = "mailer service returned status 500: raw"
  /\ error_Error (fmt_Errorf_w "failed to get mail" (foreignError "EOF"))
     = "failed to get mail: EOF".
Proof. repeat split. Qed.

(** ** The message of an error response *)

Section ErrorMessage.
Context `{Env}.

Lemma parseErrorResponse_run (statusCode : Z) (body : list byte) :
  parseErrorResponse statusCode body =
  {| StatusCode := statusCode;
     Message := preferredMessage body;
     Body := string_of_list_byte body |}.
Proof.
  unfold parseErrorResponse, preferredMessage, parsedField.
  destruct (json_Unmarshal body errorResp.zero) as [resp [e|]]; [reflexivity|].
  destruct (String.eqb_spec (errorResp.Error resp) "") as [He|He];
    destruct (String.eqb_spec (errorResp.Message resp) "") as [Hm|Hm];
    cbn; rewrite ?He, ?Hm; reflexivity.
Qed.

End ErrorMessage.

(** C1.  For every status code and body, the message of the [APIError] that
    [parseErrorResponse] builds is the [error] field of the body when the
    body parses and that field is not empty, else the [message] field when
    the body parses and that field is not empty, else the raw body.  On the
    bodies of the specification: the error field wins over the message
    field, a lone message field is taken, and a body the decoder rejects is
    the message itself. *)
Theorem parseErrorResponse_message_preference `{Env} (statusCode : Z) :
  (forall body, Message (parseErrorResponse statusCode body) = preferredMessage body)
  /\ (forall resp,
        json_Unmarshal body_error_and_message errorResp.zero = (resp, None) ->
        errorResp.Error resp = "X" ->
        Message (parseErrorResponse statusCode body_error_and_message) = "X")
  /\ (forall resp,
        json_Unmarshal body_message_only errorResp.zero = (resp, None) ->
        errorResp.Error resp = "" -> errorResp.Message resp = "Y" ->
        Message (parseErrorResponse statusCode body_message_only) = "Y")
  /\ (forall resp e,
        json_Unmarshal body_unparseable errorResp.zero = (resp, Some e) ->
        Message (parseErrorResponse statusCode body_unparseable) = "oops").
Proof.
  repeat split; intros; rewrite parseErrorResponse_run; cbn [Message];
    unfold preferredMessage, parsedField.
  - reflexivity.
  - rewrite H0, H1. reflexivity.
  - rewrite H0, H1, H2. reflexivity.
  - rewrite H0. reflexivity.
Qed.

Lemma parseErrorResponse_message_preference_witness :
  Message (@parseErrorResponse Demo.env 400 body_error_and_message) = "X"
  /\ Message (@parseErrorResponse Demo.env 404 body_message_only) = "Y"
  /\ Message (@parseErrorResponse Demo.env 500 body_unparseable) = "oops".
Proof.
  split; [|split].
  - eapply (proj1 (proj2 (@parseErrorResponse_message_preference Demo.env 400)));
      reflexivity.
  - eapply (proj1 (proj2 (proj2 (@parseErrorResponse_message_preference Demo.env 404))));
      reflexivity.
  - eapply (proj2 (proj2 (proj2 (@parseErrorResponse_message_preference Demo.env 500))));
      reflexivity.
Defined.

(** ** Running an operation *)

(** Unfold an operation down to the answers of the environment, and split on
    them. *)
Ltac unfold_client :=
  unfold ClientGo.NewClient, ClientGo.ListMails, ClientGo.GetMail, ClientGo.ListTemplates,
    ClientGo.GetTemplate, ClientGo.ListAttachments, ClientGo.GetAttachment, ClientGo.do,
    Part000.NewClient, Part000.ListMails, Part000.GetMail, Part000.ListTemplates,
    Part000.GetTemplate, Part000.ListAttachments, Part000.GetAttachment, Part000.do,
    Part000.doRequest,
    Part001.NewClient, Part001.ListMails, Part001.ListMailsWithQuery, Part001.GetMail,
    Part001.ListTemplates, Part001.ListTemplatesWithQuery, Part001.GetTemplate,
    Part001.ListAttachments, Part001.ListAttachmentsWithQuery, Part001.GetAttachment,
    Part001.do,
    http_NewRequest, http_NewRequestWithContext, http_Client_Do, hmac_Client_DoRequest,
    new_http_Client, hmac_NewClient, io.ReadAll, bind, ret in *.

Ltac split_on_answers :=
  repeat match goal with
         | |- context [match ?x with _ => _ end] =>
             match type of x with
             | sumbool _ _ => fail 1
             | _ => destruct x eqn:?
             end
         | |- context [if ?b then _ else _] => destruct b eqn:?
         end.

Ltac run_client := unfold_client; cbn; split_on_answers; cbn.

(** ** Identifiers are checked before the network is touched *)

(** C2.  For every context, client and world, [GetMail], [GetTemplate] and
    [GetAttachment] with the empty id give a nil result and the error
    [mail id is required], [template id is required] or
    [attachment id is required], and leave the world as it was: no call is
    made on a transport.  This holds in the three revisions. *)
Theorem get_with_empty_id_fails_locally `{Env} (ctx : context.Context) (w : World)
    (cg : ClientGo.Client) (c0 : Part000.Client) (c1 : Part001.Client) :
  ClientGo.GetMail cg ctx "" w = ((None, Some (errorString "mail id is required")), w)
  /\ ClientGo.GetTemplate cg ctx "" w
     = ((None, Some (errorString "template id is required")), w)
  /\ ClientGo.GetAttachment cg ctx "" w
     = ((None, Some (errorString "attachment id is required")), w)
  /\ Part000.GetMail c0 ctx "" w = ((None, Some (errorString "mail id is required")), w)
  /\ Part000.GetTemplate c0 ctx "" w
     = ((None, Some (errorString "template id is required")), w)
  /\ Part000.GetAttachment c0 ctx "" w
     = ((None, Some (errorString "attachment id is required")), w)
  /\ Part001.GetMail c1 ctx "" w = ((None, Some (errorString "mail id is required")), w)
  /\ Part001.GetTemplate c1 ctx "" w
     = ((None, Some (errorString "template id is required")), w)
  /\ Part001.GetAttachment c1 ctx "" w
     = ((None, Some (errorString "attachment id is required")), w).
Proof. repeat split. Qed.

(** ** Results and errors exclude each other *)

(** C9.  For [NewClient] and for every list and get operation of the three
    revisions, on every input and in every world, exactly one of the result
    pointer and the error is non-nil. *)
Theorem result_and_error_exclude_each_other `{Env} (ctx : context.Context) (w : World) :
  (forall cfg, exactlyOne (fst (ClientGo.NewClient cfg w)) = true)
  /\ (forall c q, exactlyOne (fst (ClientGo.ListMails c ctx q w)) = true)
  /\ (forall c id, exactlyOne (fst (ClientGo.GetMail c ctx id w)) = true)
  /\ (forall c q, exactlyOne (fst (ClientGo.ListTemplates c ctx q w)) = true)
  /\ (forall c id, exactlyOne (fst (ClientGo.GetTemplate c ctx id w)) = true)
  /\ (forall c q, exactlyOne (fst (ClientGo.ListAttachments c ctx q w)) = true)
  /\ (forall c id, exactlyOne (fst (ClientGo.GetAttachment c ctx id w)) = true)
  /\ (forall cfg, exactlyOne (fst (Part000.NewClient cfg w)) = true)
  /\ (forall c q, exactlyOne (fst (Part000.ListMails c ctx q w)) = true)
  /\ (forall c id, exactlyOne (fst (Part000.GetMail c ctx id w)) = true)
  /\ (forall c q, exactlyOne (fst (Part000.ListTemplates c ctx q w)) = true)
  /\ (forall c id, exactlyOne (fst (Part000.GetTemplate c ctx id w)) = true)
  /\ (forall c q, exactlyOne (fst (Part000.ListAttachments c ctx q w)) = true)
  /\ (forall c id, exactlyOne (fst (Part000.GetAttachment c ctx id w)) = true)
  /\ (forall cfg, exactlyOne (fst (Part001.NewClient cfg w)) = true)
  /\ (forall c req, exactlyOne (fst (Part001.ListMails c ctx req w)) = true)
  /\ (forall c q, exactlyOne (fst (Part001.ListMailsWithQuery c ctx q w)) = true)
  /\ (forall c id, exactlyOne (fst (Part001.GetMail c ctx id w)) = true)
  /\ (forall c req, exactlyOne (fst (Part001.ListTemplates c ctx req w)) = true)
  /\ (forall c q, exactlyOne (fst (Part001.ListTemplatesWithQuery c ctx q w)) = true)
  /\ (forall c id, exactlyOne (fst (Part001.GetTemplate c ctx id w)) = true)
  /\ (forall c req, exactlyOne (fst (Part001.ListAttachments c ctx req w)) = true)
  /\ (forall c q, exactlyOne (fst (Part001.ListAttachmentsWithQuery c ctx q w)) = true)
  /\ (forall c id, exactlyOne (fst (Part001.GetAttachment c ctx id w)) = true).
Proof.
  repeat split; intros; run_client; reflexivity.
Qed.

(** ** The status code decides between result and [APIError] *)

(** The log of calls grows by the call made, or stays as it is. *)
Ltac same_call :=
  match goal with
  | E : calls ?w = (calls ?w ++ [_])%list |- _ =>
      apply (f_equal (@List.length Call)) in E; rewrite length_app in E; cbn in E; lia
  | E : (calls ?w ++ [_] = calls ?w ++ [_])%list |- _ =>
      apply app_inj_tail in E; destruct E as [_ E]; subst
  end.

Ltac is_answer x :=
  match x with
  | http_requestError _ _ _ => idtac
  | http_roundTrip _ _ _ => idtac
  | hmac_roundTrip _ _ _ _ _ => idtac
  | json_Decode _ _ => idtac
  | hmac_ParseJSONResponse _ _ => idtac
  | json_Marshal _ => idtac
  | String.eqb _ _ => idtac
  | Z.eqb _ _ => idtac
  end.

Ltac step := cbn -[String.append statusIn parseErrorResponse fmt_Errorf_w].
Ltac step_in H := cbn -[String.append statusIn parseErrorResponse fmt_Errorf_w] in H.

Ltac on_answers :=
  repeat match goal with
         | |- context [statusIn ?a ?b] => destruct (statusIn a b) eqn:?; step
         | |- context [match ?x with _ => _ end] => is_answer x; destruct x eqn:?; step
         | |- context [match ?x with _ => _ end] => is_var x; destruct x; step
         end.

Ltac agree :=
  repeat match goal with
         | H1 : ?x = _, H2 : ?x = _ |- _ => rewrite H1 in H2; inversion H2; subst; clear H2
         end.

Ltac conjuncts := repeat match goal with |- _ /\ _ => split end.

(** Run an operation against the answers assumed for its call: the request
    is accepted, the transport answers. *)
Ltac answered :=
  unfold_client;
    unfold requestAccepted, respond, hmacGet, httpGet, getRequest, afterCall, decodeBody,
      rawQueryPath, Part001.rawQuery_path, http.MethodGet, http.StatusOK;
    cbn [http.Ctx http.Method http.URL];
    repeat match goal with
           | Hid : _ <> "" |- _ => rewrite (proj2 (String.eqb_neq _ _) Hid); clear Hid
           end;
    try match goal with |- context [?q =? ""] => destruct (q =? "") end;
    cbn [negb]; cbv beta iota zeta;
  let Haccepted := fresh "Haccepted" in
  let Hanswer := fresh "Hanswer" in
  intros Haccepted Hanswer; rewrite ?Haccepted, Hanswer; step.



(** ** An [APIError] keeps the status and the body *)

(** C5.  For every status code and body, the [APIError] of
    [parseErrorResponse] has the status code it was given and a [Body] that
    is, byte for byte, the body it was given, whatever message it chose.
    Hence [do], in each revision, for every method, path, accepted set and
    result target: in every world where the request is accepted and the
    transport answers with a status outside the accepted set, [do] makes
    that one call and returns an [APIError] with the status received and
    the exact bytes read from the response body. *)
Theorem api_error_retains_status_and_body `{Env} :
  (forall statusCode body,
      StatusCode (parseErrorResponse statusCode body) = statusCode
      /\ list_byte_of_string (Body (parseErrorResponse statusCode body)) = body)
  /\ (forall (T : Type) c method path body accepted (result : option T) wrapErr,
         RetainsStatusAndBody
           (hmacDoRequest (ClientGo.client c) method path body) accepted result
           (ClientGo.do c method path body accepted result wrapErr))
  /\ (forall (T : Type) c method path accepted (result : option T) wrapErr,
         RetainsStatusAndBody
           (httpDo (Part000.httpClient c)
              (requestOf context.Background method (Part000.baseURL c ++ path) None))
           accepted result
           (Part000.do c method path None accepted result wrapErr))
  /\ (forall (T : Type) c method path b raw accepted (result : option T) wrapErr,
         json_Marshal b = (raw, None) ->
         RetainsStatusAndBody
           (httpDo (Part000.httpClient c)
              (requestOf context.Background method (Part000.baseURL c ++ path) (Some raw)))
           accepted result
           (Part000.do c method path (Some b) accepted result wrapErr))
  /\ (forall (T : Type) c ctx method path accepted (result : option T) wrapErr,
         RetainsStatusAndBody
           (httpDo (Part001.client c) (requestOf ctx method path None)) accepted result
           (Part001.do c ctx method path accepted result wrapErr)).
Proof.
  conjuncts.
  - intros. rewrite parseErrorResponse_run. cbn.
    split; [reflexivity | apply list_byte_of_string_of_list_byte].
  - intros. intros w resp _ Hanswer Hstatus. unfold_client. unfold respond in Hanswer.
    rewrite Hanswer. step. rewrite Hstatus. step.
    eexists. split; [reflexivity|]. rewrite parseErrorResponse_run.
    cbn [StatusCode Body]. auto using list_byte_of_string_of_list_byte.
  - intros. intros w resp Haccepted Hanswer Hstatus. unfold_client.
    unfold requestAccepted, respond, requestOf in *. cbn [http.Ctx http.Method http.URL] in *.
    rewrite Haccepted. cbv beta iota zeta. rewrite Hanswer. step. rewrite Hstatus. step.
    eexists. split; [reflexivity|]. rewrite parseErrorResponse_run.
    cbn [StatusCode Body]. auto using list_byte_of_string_of_list_byte.
  - intros T c method path b raw accepted result wrapErr Hraw.
    intros w resp Haccepted Hanswer Hstatus. unfold_client.
    unfold requestAccepted, respond, requestOf, Header_Set_ContentType in *.
    cbn [http.Ctx http.Method http.URL http.ReqBody] in *.
    rewrite Hraw. cbv beta iota zeta. rewrite Haccepted. cbv beta iota zeta.
    cbn [http.Ctx http.Method http.URL http.ReqBody]. rewrite Hanswer. step.
    rewrite Hstatus. step.
    eexists. split; [reflexivity|]. rewrite parseErrorResponse_run.
    cbn [StatusCode Body]. auto using list_byte_of_string_of_list_byte.
  - intros. intros w resp Haccepted Hanswer Hstatus. unfold_client.
    unfold requestAccepted, respond, requestOf in *. cbn [http.Ctx http.Method http.URL] in *.
    rewrite Haccepted. cbv beta iota zeta. rewrite Hanswer. step. rewrite Hstatus. step.
    eexists. split; [reflexivity|]. rewrite parseErrorResponse_run.
    cbn [StatusCode Body]. auto using list_byte_of_string_of_list_byte.
Qed.

Lemma api_error_retains_status_and_body_witness :
  exists e : APIError,
    @Part001.do Demo.env GetMailResponse.t Demo.plainClient context.Background
      "GET" "http://h:1/api/v1/mails/gone" [200] (Some GetMailResponse.zero)
      "failed to get mail" emptyWorld
    = ((Some GetMailResponse.zero, Some (apiError e)),
       afterCall emptyWorld
         (httpDo (Part001.client Demo.plainClient)
            (requestOf context.Background "GET" "http://h:1/api/v1/mails/gone" None)))
    /\ StatusCode e = 404
    /\ list_byte_of_string (Body e) = body_message_only.
Proof.
  destruct (@api_error_retains_status_and_body Demo.env) as (_ & _ & _ & _ & G).
  edestruct (G GetMailResponse.t Demo.plainClient context.Background "GET"
               "http://h:1/api/v1/mails/gone" [200] (Some GetMailResponse.zero)
               "failed to get mail" emptyWorld _ eq_refl eq_refl eq_refl)
    as (e & He & _ & Hs & Hb).
  exists e. split; [exact He | split; [exact Hs | exact Hb]].
Defined.

(** ** The query string of the structured [ListMails] *)

Lemma ListMails_path_filtering_eq (c : Part001.Client) (req : Part001.ListMailsRequest.t) :
  Part001.ListMails_path c req = ListMails_path_filtering c req.
Proof.
  unfold Part001.ListMails_path, ListMails_path_filtering, queryOf, mailFilters, filtersOn.
  rewrite !Z.gtb_ltb. cbn [filter snd fst].
  destruct (0 <? Part001.ListMailsRequest.Page req)%Z;
    destruct (0 <? Part001.ListMailsRequest.PerPage req)%Z;
    destruct (Part001.ListMailsRequest.Service req =? "");
    destruct (Part001.ListMailsRequest.Type_ req =? "");
    destruct (Part001.ListMailsRequest.Status req =? "");
    reflexivity.
Qed.

(** C3, as the claim words it, fails: a negative [Page] is not at its zero
    value, yet [ListMails] sends no [page] parameter for it. *)
Lemma ListMails_omits_negative_page :
  Part001.ListMailsRequest.Page Demo.negativePage <> 0
  /\ Part001.ListMails_path Demo.plainClient Demo.negativePage = "http://h:1/api/v1/mails"
  /\ ListMails_path_claimed Demo.plainClient Demo.negativePage
     = "http://h:1/api/v1/mails?page=-1"
  /\ Part001.ListMails_path Demo.plainClient Demo.negativePage
     <> ListMails_path_claimed Demo.plainClient Demo.negativePage.
Proof.
  split; [discriminate | split; [reflexivity | split; [reflexivity | ]]].
  intros E. vm_compute in E. discriminate E.
Qed.

(** C3, amended.  For every [ListMailsRequest], the structured [ListMails]
    requests the base URL followed by [/api/v1/mails] and, in the fixed
    order page, per_page, service, type, status, one query parameter for
    every numeric field that is positive and every string field that is not
    empty, the string values escaped by [url.QueryEscape]; with no such
    field there is no [?].  With all fields at their zero value the URL ends
    in [/api/v1/mails], with Page=2 and PerPage=50 in
    [/api/v1/mails?page=2&per_page=50].  This URL is the one of the request
    that [ListMails] sends. *)
Theorem ListMails_query_of_filtering_fields `{Env} (c : Part001.Client) :
  (forall req, Part001.ListMails_path c req = ListMails_path_filtering c req)
  /\ Part001.ListMails_path c
       {| Part001.ListMailsRequest.Page := 0; Part001.ListMailsRequest.PerPage := 0;
          Part001.ListMailsRequest.Service := ""; Part001.ListMailsRequest.Type_ := "";
          Part001.ListMailsRequest.Status := "" |}
     = Part001.baseURL c ++ "/api/v1/mails"
  /\ Part001.ListMails_path c
       {| Part001.ListMailsRequest.Page := 2; Part001.ListMailsRequest.PerPage := 50;
          Part001.ListMailsRequest.Service := ""; Part001.ListMailsRequest.Type_ := "";
          Part001.ListMailsRequest.Status := "" |}
     = (Part001.baseURL c ++ "/api/v1/mails") ++ "?page=2&per_page=50"
  /\ (forall ctx req w,
         http_requestError ctx "GET" (Part001.ListMails_path c req) = None ->
         calls (snd (Part001.ListMails c ctx req w))
         = (calls w ++ [httpDo (Part001.client c)
                          {| http.Ctx := ctx; http.Method := "GET";
                             http.URL := Part001.ListMails_path c req;
                             http.ReqBody := None; http.ContentType := None |}])%list).
Proof.
  conjuncts.
  - apply ListMails_path_filtering_eq.
  - reflexivity.
  - reflexivity.
  - intros ctx req w Hok. unfold_client. unfold http.MethodGet. rewrite Hok.
    step. on_answers; reflexivity.
Qed.

Lemma ListMails_query_of_filtering_fields_witness :
  calls (snd (@Part001.ListMails Demo.env Demo.plainClient context.Background
                {| Part001.ListMailsRequest.Page := 2; Part001.ListMailsRequest.PerPage := 50;
                   Part001.ListMailsRequest.Service := "a b";
                   Part001.ListMailsRequest.Type_ := "";
                   Part001.ListMailsRequest.Status := "sent" |} emptyWorld))
  = [httpDo (Part001.client Demo.plainClient)
       {| http.Ctx := context.Background; http.Method := "GET";
          http.URL := "http://h:1/api/v1/mails?page=2&per_page=50&service=a+b&status=sent";
          http.ReqBody := None; http.ContentType := None |}].
Proof.
  exact (proj2 (proj2 (proj2 (@ListMails_query_of_filtering_fields Demo.env Demo.plainClient)))
           context.Background _ emptyWorld eq_refl).
Defined.

(** ** Identifiers travel as one path segment *)

Lemma escaped_byte_has_no_breaker (c sep : ascii) :
  In sep segmentBreakers ->
  Go.ContainsByte (Go.escape (String c EmptyString) Go.encodePathSegment) sep = false.
Proof.
  intros Hsep.
  destruct Hsep as [<-|[<-|[<-|[<-|[]]]]];
    destruct c as [[] [] [] [] [] [] [] []]; reflexivity.
Qed.

Lemma escape_cons (c : ascii) (r : string) :
  Go.escape (String c r) Go.encodePathSegment
  = Go.escape (String c EmptyString) Go.encodePathSegment ++ Go.escape r Go.encodePathSegment.
Proof. cbn. destruct (Go.shouldEscape c Go.encodePathSegment); reflexivity. Qed.

Lemma ContainsByte_app (s t : string) (sep : ascii) :
  Go.ContainsByte (s ++ t) sep = Go.ContainsByte s sep || Go.ContainsByte t sep.
Proof.
  induction s as [|x s IH]; cbn; [reflexivity|].
  rewrite IH. apply orb_assoc.
Qed.

Lemma PathEscape_has_no_breaker (s : string) (sep : ascii) :
  In sep segmentBreakers -> Go.ContainsByte (Go.PathEscape s) sep = false.
Proof.
  intros Hsep. unfold Go.PathEscape.
  induction s as [|c r IH]; [reflexivity|].
  rewrite escape_cons, ContainsByte_app, IH, escaped_byte_has_no_breaker by assumption.
  reflexivity.
Qed.

Lemma PathEscape_app (s t : string) :
  Go.PathEscape (s ++ t) = Go.PathEscape s ++ Go.PathEscape t.
Proof.
  unfold Go.PathEscape. induction s as [|c r IH]; [reflexivity|].
  cbn [String.append]. rewrite (escape_cons c (r ++ t)), (escape_cons c r), IH.
  induction (Go.escape (String c "") Go.encodePathSegment) as [|x e IHe];
    cbn; [reflexivity | now rewrite IHe].
Qed.

Lemma unescape_escaped_byte (c : ascii) (rest : string) :
  Go.unescape (Go.escape (String c EmptyString) Go.encodePathSegment ++ rest)
              Go.encodePathSegment
  = option_map (String c) (Go.unescape rest Go.encodePathSegment).
Proof. destruct c as [[] [] [] [] [] [] [] []]; reflexivity. Qed.

Lemma PathUnescape_PathEscape (s : string) : Go.PathUnescape (Go.PathEscape s) = Some s.
Proof.
  unfold Go.PathUnescape, Go.PathEscape.
  induction s as [|c r IH]; [reflexivity|].
  rewrite escape_cons, unescape_escaped_byte, IH. reflexivity.
Qed.

Lemma PathEscape_nonempty (s : string) : s <> "" -> Go.PathEscape s <> "".
Proof.
  destruct s as [|c r]; [congruence|]. intros _. unfold Go.PathEscape. cbn.
  destruct (Go.shouldEscape c Go.encodePathSegment); discriminate.
Qed.

Lemma Split_nonnil (s : string) (sep : ascii) : Go.Split s sep <> [].
Proof.
  destruct s as [|c r]; cbn; [discriminate|].
  destruct (Ascii.eqb c sep); [discriminate|].
  destruct (Go.Split r sep); discriminate.
Qed.

Lemma Split_without_sep (s : string) (sep : ascii) :
  Go.ContainsByte s sep = false -> Go.Split s sep = [s].
Proof.
  induction s as [|c r IH]; cbn; [reflexivity|].
  intros Hc. apply orb_false_iff in Hc. destruct Hc as [Hc Hr].
  rewrite Hc, (IH Hr). reflexivity.
Qed.

Lemma Split_app_segment (p t : string) (sep : ascii) :
  Go.ContainsByte t sep = false ->
  Go.Split (p ++ String sep t) sep = (Go.Split p sep ++ [t])%list.
Proof.
  intros Ht. induction p as [|c r IH]; cbn.
  - rewrite Ascii.eqb_refl, (Split_without_sep _ _ Ht). reflexivity.
  - destruct (Ascii.eqb c sep).
    + rewrite IH. reflexivity.
    + rewrite IH. pose proof (Split_nonnil r sep) as Hn.
      destruct (Go.Split r sep); [contradiction|reflexivity].
Qed.

Lemma String_eqb_false (s t : string) : s <> t -> (s =? t) = false.
Proof. intros Hn. now apply String.eqb_neq. Qed.

Lemma append_assoc (s t u : string) : (s ++ t) ++ u = s ++ t ++ u.
Proof. induction s as [|c s IH]; cbn; [reflexivity | now rewrite IH]. Qed.

Lemma mails_url (base seg : string) :
  (base ++ "/api/v1/mails") ++ "/" ++ seg = base ++ apiPathPrefix ++ "/mails/" ++ seg.
Proof. now rewrite append_assoc. Qed.

Lemma templates_url (base seg : string) :
  (base ++ "/api/v1/templates") ++ "/" ++ seg
  = base ++ apiPathPrefix ++ "/templates/" ++ seg.
Proof. now rewrite append_assoc. Qed.

Lemma attachments_url (base seg : string) :
  (base ++ "/api/v1/attachments") ++ "/" ++ seg
  = base ++ apiPathPrefix ++ "/attachments/" ++ seg.
Proof. now rewrite append_assoc. Qed.

Ltac sent_get Hid :=
  unfold_client; unfold http.MethodGet, getRequest;
  rewrite (proj2 (String.eqb_neq _ _) Hid); cbv beta iota; step; on_answers;
  (reflexivity || congruence).

Ltac sent_plain_get Hid url_eq :=
  let Hok := fresh "Hok" in
  intros ? ? ? ? -> Hok; rewrite url_eq in *; sent_get Hid.

(** C6.  For every non-empty id, the segment [pathSeg id] is not empty and
    holds none of the bytes [/], space, [?] and [#], a [/] of the id being
    written [%2F] and a space [%20], and unescaping the segment gives the id
    back; so a URL that ends in
    [/] followed by the segment has, split at [/], exactly the components
    of the URL before it and the segment as one more.  Every get operation
    of the three revisions sends the URL (the path, for the HMAC client) of
    its list endpoint followed by [/] and that segment. *)
Theorem get_sends_id_as_one_escaped_segment `{Env} (id : string) (Hid : id <> "") :
  pathSeg id <> ""
  /\ (forall sep, In sep segmentBreakers -> Go.ContainsByte (pathSeg id) sep = false)
  /\ Go.PathUnescape (pathSeg id) = Some id
  /\ (forall s t, pathSeg (s ++ "/" ++ t) = pathSeg s ++ "%2F" ++ pathSeg t)
  /\ (forall s t, pathSeg (s ++ " " ++ t) = pathSeg s ++ "%20" ++ pathSeg t)
  /\ (forall listURL,
         Go.Split (listURL ++ "/" ++ pathSeg id) "/"
         = (Go.Split listURL "/" ++ [pathSeg id])%list)
  /\ (forall c ctx w,
         calls (snd (ClientGo.GetMail c ctx id w))
         = (calls w ++ [hmacDoRequest (ClientGo.client c) "GET"
                          ("/api/v1/mails" ++ "/" ++ pathSeg id) None])%list)
  /\ (forall c ctx w,
         calls (snd (ClientGo.GetTemplate c ctx id w))
         = (calls w ++ [hmacDoRequest (ClientGo.client c) "GET"
                          ("/api/v1/templates" ++ "/" ++ pathSeg id) None])%list)
  /\ (forall c ctx w,
         calls (snd (ClientGo.GetAttachment c ctx id w))
         = (calls w ++ [hmacDoRequest (ClientGo.client c) "GET"
                          ("/api/v1/attachments" ++ "/" ++ pathSeg id) None])%list)
  /\ (forall c ctx w url,
         url = (Part000.baseURL c ++ "/api/v1/mails") ++ "/" ++ pathSeg id ->
         http_requestError context.Background "GET" url = None ->
         calls (snd (Part000.GetMail c ctx id w))
         = (calls w ++ [httpDo (Part000.httpClient c)
                          (getRequest context.Background url)])%list)
  /\ (forall c ctx w url,
         url = (Part000.baseURL c ++ "/api/v1/templates") ++ "/" ++ pathSeg id ->
         http_requestError context.Background "GET" url = None ->
         calls (snd (Part000.GetTemplate c ctx id w))
         = (calls w ++ [httpDo (Part000.httpClient c)
                          (getRequest context.Background url)])%list)
  /\ (forall c ctx w url,
         url = (Part000.baseURL c ++ "/api/v1/attachments") ++ "/" ++ pathSeg id ->
         http_requestError context.Background "GET" url = None ->
         calls (snd (Part000.GetAttachment c ctx id w))
         = (calls w ++ [httpDo (Part000.httpClient c)
                          (getRequest context.Background url)])%list)
  /\ (forall c ctx w url,
         url = (Part001.baseURL c ++ "/api/v1/mails") ++ "/" ++ pathSeg id ->
         http_requestError ctx "GET" url = None ->
         calls (snd (Part001.GetMail c ctx id w))
         = (calls w ++ [httpDo (Part001.client c) (getRequest ctx url)])%list)
  /\ (forall c ctx w url,
         url = (Part001.baseURL c ++ "/api/v1/templates") ++ "/" ++ pathSeg id ->
         http_requestError ctx "GET" url = None ->
         calls (snd (Part001.GetTemplate c ctx id w))
         = (calls w ++ [httpDo (Part001.client c) (getRequest ctx url)])%list)
  /\ (forall c ctx w url,
         url = (Part001.baseURL c ++ "/api/v1/attachments") ++ "/" ++ pathSeg id ->
         http_requestError ctx "GET" url = None ->
         calls (snd (Part001.GetAttachment c ctx id w))
         = (calls w ++ [httpDo (Part001.client c) (getRequest ctx url)])%list).
Proof.
  conjuncts.
  - now apply PathEscape_nonempty.
  - intros sep Hsep. now apply PathEscape_has_no_breaker.
  - apply PathUnescape_PathEscape.
  - intros s t. unfold pathSeg. now rewrite !PathEscape_app.
  - intros s t. unfold pathSeg. now rewrite !PathEscape_app.
  - intros listURL. apply Split_app_segment.
    apply PathEscape_has_no_breaker. now left.
  - intros. sent_get Hid.
  - intros. sent_get Hid.
  - intros. sent_get Hid.
  - sent_plain_get Hid mails_url.
  - sent_plain_get Hid templates_url.
  - sent_plain_get Hid attachments_url.
  - sent_plain_get Hid mails_url.
  - sent_plain_get Hid templates_url.
  - sent_plain_get Hid attachments_url.
Qed.

Lemma get_sends_id_as_one_escaped_segment_witness :
  Go.Split ("http://h:1/api/v1/mails" ++ "/" ++ pathSeg "a/b c") "/"
  = ["http:"; ""; "h:1"; "api"; "v1"; "mails"; "a%2Fb%20c"]
  /\ calls (snd (@Part001.GetMail Demo.env Demo.plainClient context.Background "a/b c"
                   emptyWorld))
     = [httpDo (Part001.client Demo.plainClient)
          (getRequest context.Background "http://h:1/api/v1/mails/a%2Fb%20c")]
  /\ calls (snd (@ClientGo.GetMail Demo.env Demo.hmacClient context.Background "a/b c"
                   emptyWorld))
     = [hmacDoRequest (ClientGo.client Demo.hmacClient) "GET" "/api/v1/mails/a%2Fb%20c" None].
Proof.
  assert (Hid : "a/b c" <> "") by discriminate.
  destruct (@get_sends_id_as_one_escaped_segment Demo.env "a/b c" Hid)
    as (_ & _ & _ & _ & _ & G3 & G4 & _ & _ & _ & _ & _ & G10 & _).
  split; [|split].
  - exact (G3 "http://h:1/api/v1/mails").
  - exact (G10 Demo.plainClient context.Background emptyWorld _ eq_refl eq_refl).
  - exact (G4 Demo.hmacClient context.Background emptyWorld).
Defined.

(** ** Construction *)

Lemma TrimRight_app_slash (b : string) : Go.TrimRight (b ++ "/") "/" = Go.TrimRight b "/".
Proof.
  induction b as [|c r IH]; [reflexivity|].
  cbn [String.append Go.TrimRight]. now rewrite IH.
Qed.

Lemma TrimRight_slash_spec (s : string) :
  Go.lastByte (Go.TrimRight s "/") <> Some "/"%char
  /\ exists n, s = Go.TrimRight s "/" ++ Go.Repeat "/" n.
Proof.
  induction s as [|c r [IHlast [n IHn]]].
  - split; [discriminate | exists O; reflexivity].
  - cbn [Go.TrimRight]. destruct (Go.TrimRight r "/") as [|x y] eqn:Er.
    + unfold Go.inCutset. cbn [list_ascii_of_string existsb]. rewrite orb_false_r.
      destruct (Ascii.eqb_spec c "/") as [->|Hc].
      * split; [discriminate|]. exists (S n). cbn. now rewrite IHn at 1.
      * split; [cbn; congruence|]. exists n. cbn. now rewrite IHn at 1.
    + split; [exact IHlast|]. exists n. cbn [String.append]. now rewrite IHn at 1.
Qed.

Lemma app_slash_nonempty (b : string) : (b ++ "/" =? "") = false.
Proof. destruct b; reflexivity. Qed.

Lemma same_client_same_requests {C : Type} (c1 c2 : C) : c1 = c2 -> SameRequests c1 c2.
Proof. intros -> A op w. reflexivity. Qed.

(** C7.  For every base URL [b] (and every timeout, secret and world), in
    each revision: the base URL of a client that [NewClient] gives for [b]
    is [b] without its trailing slashes; when [NewClient] gives a client for
    [b] and a client for [b] followed by [/], the two clients send the same
    requests in every operation; and for a non-empty [b] both constructions
    do give a client, the same one. *)
Theorem NewClient_strips_trailing_slash `{Env} (b : string) (t : Z) (w : World) :
  (forall secret c,
      fst (ClientGo.NewClient {| ClientGo.BaseURL := b; ClientGo.HMACSecret := secret;
                                 ClientGo.Timeout := t |} w) = (Some c, None) ->
      let base := hmac.BaseURL (hmac.config (ClientGo.client c)) in
      Go.lastByte base <> Some "/"%char /\ exists n, b = base ++ Go.Repeat "/" n)
  /\ (forall c,
      fst (Part000.NewClient {| Part000.BaseURL := b; Part000.Timeout := t |} w)
        = (Some c, None) ->
      Go.lastByte (Part000.baseURL c) <> Some "/"%char
      /\ exists n, b = Part000.baseURL c ++ Go.Repeat "/" n)
  /\ (forall c,
      fst (Part001.NewClient {| Part001.BaseURL := b; Part001.Timeout := t |} w)
        = (Some c, None) ->
      Go.lastByte (Part001.baseURL c) <> Some "/"%char
      /\ exists n, b = Part001.baseURL c ++ Go.Repeat "/" n)
  /\ (forall secret c1 c2,
      fst (ClientGo.NewClient {| ClientGo.BaseURL := b; ClientGo.HMACSecret := secret;
                                 ClientGo.Timeout := t |} w) = (Some c1, None) ->
      fst (ClientGo.NewClient {| ClientGo.BaseURL := b ++ "/"; ClientGo.HMACSecret := secret;
                                 ClientGo.Timeout := t |} w) = (Some c2, None) ->
      SameRequests c1 c2)
  /\ (forall c1 c2,
      fst (Part000.NewClient {| Part000.BaseURL := b; Part000.Timeout := t |} w)
        = (Some c1, None) ->
      fst (Part000.NewClient {| Part000.BaseURL := b ++ "/"; Part000.Timeout := t |} w)
        = (Some c2, None) ->
      SameRequests c1 c2)
  /\ (forall c1 c2,
      fst (Part001.NewClient {| Part001.BaseURL := b; Part001.Timeout := t |} w)
        = (Some c1, None) ->
      fst (Part001.NewClient {| Part001.BaseURL := b ++ "/"; Part001.Timeout := t |} w)
        = (Some c2, None) ->
      SameRequests c1 c2)
  /\ (b <> "" ->
      (forall secret, secret <> "" ->
         exists c,
           fst (ClientGo.NewClient {| ClientGo.BaseURL := b; ClientGo.HMACSecret := secret;
                                      ClientGo.Timeout := t |} w) = (Some c, None)
           /\ fst (ClientGo.NewClient {| ClientGo.BaseURL := b ++ "/";
                                         ClientGo.HMACSecret := secret;
                                         ClientGo.Timeout := t |} w) = (Some c, None))
      /\ (exists c,
           fst (Part000.NewClient {| Part000.BaseURL := b; Part000.Timeout := t |} w)
             = (Some c, None)
           /\ fst (Part000.NewClient {| Part000.BaseURL := b ++ "/"; Part000.Timeout := t |} w)
              = (Some c, None))
      /\ (exists c,
           fst (Part001.NewClient {| Part001.BaseURL := b; Part001.Timeout := t |} w)
             = (Some c, None)
           /\ fst (Part001.NewClient {| Part001.BaseURL := b ++ "/"; Part001.Timeout := t |} w)
              = (Some c, None))).
Proof.
  conjuncts.
  - intros secret c. unfold_client.
    cbn [ClientGo.BaseURL ClientGo.HMACSecret ClientGo.Timeout].
    destruct (b =? ""); [discriminate|]. destruct (secret =? ""); [discriminate|].
    cbn. intros E. injection E as <-. cbn. apply TrimRight_slash_spec.
  - intros c. unfold_client. cbn [Part000.BaseURL Part000.Timeout].
    destruct (b =? ""); [discriminate|].
    cbn. intros E. injection E as <-. cbn. apply TrimRight_slash_spec.
  - intros c. unfold_client. cbn [Part001.BaseURL Part001.Timeout].
    destruct (b =? ""); [discriminate|].
    cbn. intros E. injection E as <-. cbn. apply TrimRight_slash_spec.
  - intros secret c1 c2. unfold_client.
    cbn [ClientGo.BaseURL ClientGo.HMACSecret ClientGo.Timeout].
    rewrite app_slash_nonempty, TrimRight_app_slash.
    destruct (b =? ""); [discriminate|]. destruct (secret =? ""); [discriminate|].
    cbn. intros E1 E2. apply same_client_same_requests. congruence.
  - intros c1 c2. unfold_client. cbn [Part000.BaseURL Part000.Timeout].
    rewrite app_slash_nonempty, TrimRight_app_slash.
    destruct (b =? ""); [discriminate|].
    cbn. intros E1 E2. apply same_client_same_requests. congruence.
  - intros c1 c2. unfold_client. cbn [Part001.BaseURL Part001.Timeout].
    rewrite app_slash_nonempty, TrimRight_app_slash.
    destruct (b =? ""); [discriminate|].
    cbn. intros E1 E2. apply same_client_same_requests. congruence.
  - intros Hb. conjuncts.
    + intros secret Hs. unfold_client.
      cbn [ClientGo.BaseURL ClientGo.HMACSecret ClientGo.Timeout].
      rewrite app_slash_nonempty, TrimRight_app_slash, (String_eqb_false Hb),
        (String_eqb_false Hs).
      cbn. eexists. split; reflexivity.
    + unfold_client. cbn [Part000.BaseURL Part000.Timeout].
      rewrite app_slash_nonempty, TrimRight_app_slash, (String_eqb_false Hb).
      cbn. eexists. split; reflexivity.
    + unfold_client. cbn [Part001.BaseURL Part001.Timeout].
      rewrite app_slash_nonempty, TrimRight_app_slash, (String_eqb_false Hb).
      cbn. eexists. split; reflexivity.
Qed.

Lemma NewClient_strips_trailing_slash_witness :
  exists c1 c2 : Part001.Client,
    fst (Part001.NewClient
           {| Part001.BaseURL := "http://h:1"; Part001.Timeout := 0 |} emptyWorld)
    = (Some c1, None)
    /\ fst (Part001.NewClient
              {| Part001.BaseURL := "http://h:1/"; Part001.Timeout := 0 |} emptyWorld)
       = (Some c2, None)
    /\ SameRequests c1 c2.
Proof.
  eexists. eexists. split; [reflexivity | split; [reflexivity|]].
  eapply (proj1 (proj2 (proj2 (proj2 (proj2 (proj2
            (@NewClient_strips_trailing_slash Demo.env "http://h:1" 0 emptyWorld)))))));
    reflexivity.
Defined.

Ltac construct :=
  unfold_client;
  repeat match goal with
         | E : _ = "" |- _ => rewrite E
         | E : _ <> "" |- _ => rewrite (proj2 (String.eqb_neq _ _) E)
         end;
  cbn.

(** C8.  In each revision [NewClient] with an empty base URL gives no client
    and the error [base URL is required], and creates no network capability
    (the world is as before).  In the HMAC revision a non-empty base URL
    with an empty secret gives no client and the error
    [HMAC secret is required], again with nothing created.  Every other
    configuration gives a client and no error, and the one capability
    created is the transport of that client. *)
Theorem NewClient_requires_base_URL_and_secret `{Env} (w : World) :
  (forall cfg, ClientGo.BaseURL cfg = "" ->
      ClientGo.NewClient cfg w = ((None, Some (errorString "base URL is required")), w))
  /\ (forall cfg, ClientGo.BaseURL cfg <> "" -> ClientGo.HMACSecret cfg = "" ->
      ClientGo.NewClient cfg w = ((None, Some (errorString "HMAC secret is required")), w))
  /\ (forall cfg, ClientGo.BaseURL cfg <> "" -> ClientGo.HMACSecret cfg <> "" ->
      exists c,
        ClientGo.NewClient cfg w
        = ((Some c, None),
           {| created := (created w ++ [hmacCapability (ClientGo.client c)])%list;
              calls := calls w |}))
  /\ (forall cfg, Part000.BaseURL cfg = "" ->
      Part000.NewClient cfg w = ((None, Some (errorString "base URL is required")), w))
  /\ (forall cfg, Part000.BaseURL cfg <> "" ->
      exists c,
        Part000.NewClient cfg w
        = ((Some c, None),
           {| created := (created w ++ [httpCapability (Part000.httpClient c)])%list;
              calls := calls w |}))
  /\ (forall cfg, Part001.BaseURL cfg = "" ->
      Part001.NewClient cfg w = ((None, Some (errorString "base URL is required")), w))
  /\ (forall cfg, Part001.BaseURL cfg <> "" ->
      exists c,
        Part001.NewClient cfg w
        = ((Some c, None),
           {| created := (created w ++ [httpCapability (Part001.client c)])%list;
              calls := calls w |})).
Proof.
  conjuncts; intros; construct; try reflexivity;
    eexists; apply (f_equal2 pair); reflexivity.
Qed.

Lemma NewClient_requires_base_URL_and_secret_witness :
  ClientGo.NewClient
    {| ClientGo.BaseURL := ""; ClientGo.HMACSecret := "s3cret"; ClientGo.Timeout := 0 |}
    emptyWorld
  = ((None, Some (errorString "base URL is required")), emptyWorld)
  /\ ClientGo.NewClient
       {| ClientGo.BaseURL := "http://h:1"; ClientGo.HMACSecret := ""; ClientGo.Timeout := 0 |}
       emptyWorld
     = ((None, Some (errorString "HMAC secret is required")), emptyWorld)
  /\ (exists c,
        Part000.NewClient
          {| Part000.BaseURL := "http://h:1"; Part000.Timeout := 0 |} emptyWorld
        = ((Some c, None),
           {| created := [httpCapability (Part000.httpClient c)]; calls := [] |})).
Proof.
  destruct (@NewClient_requires_base_URL_and_secret Demo.env emptyWorld)
    as (G1 & G2 & _ & _ & G5 & _).
  split; [|split].
  - apply G1. reflexivity.
  - apply G2; [discriminate | reflexivity].
  - apply (G5 {| Part000.BaseURL := "http://h:1"; Part000.Timeout := 0 |}). discriminate.
Defined.

(** C10.  In each revision, for every configuration that [NewClient]
    accepts (a non-empty base URL and, in [client.go], a non-empty secret),
    whatever its timeout: [NewClient] gives a client and creates its
    transport, and the timeout of the transport is the default of 10
    seconds if the configured timeout is exactly zero, and the configured
    timeout itself otherwise; so a negative timeout reaches the transport as
    it is. *)
Theorem NewClient_defaults_only_a_zero_timeout `{Env} (w : World) :
  (forall cfg, ClientGo.BaseURL cfg <> "" -> ClientGo.HMACSecret cfg <> "" ->
      exists c,
        ClientGo.NewClient cfg w
        = ((Some c, None),
           {| created := (created w ++ [hmacCapability (ClientGo.client c)])%list;
              calls := calls w |})
        /\ let timeout := hmac.Timeout (hmac.config (ClientGo.client c)) in
           (ClientGo.Timeout cfg = 0 -> timeout = 10000000000)
           /\ (ClientGo.Timeout cfg <> 0 -> timeout = ClientGo.Timeout cfg)
           /\ (ClientGo.Timeout cfg < 0 -> timeout = ClientGo.Timeout cfg))
  /\ (forall cfg, Part000.BaseURL cfg <> "" ->
      exists c,
        Part000.NewClient cfg w
        = ((Some c, None),
           {| created := (created w ++ [httpCapability (Part000.httpClient c)])%list;
              calls := calls w |})
        /\ let timeout := http.Timeout (Part000.httpClient c) in
           (Part000.Timeout cfg = 0 -> timeout = 10000000000)
           /\ (Part000.Timeout cfg <> 0 -> timeout = Part000.Timeout cfg)
           /\ (Part000.Timeout cfg < 0 -> timeout = Part000.Timeout cfg))
  /\ (forall cfg, Part001.BaseURL cfg <> "" ->
      exists c,
        Part001.NewClient cfg w
        = ((Some c, None),
           {| created := (created w ++ [httpCapability (Part001.client c)])%list;
              calls := calls w |})
        /\ let timeout := http.Timeout (Part001.client c) in
           (Part001.Timeout cfg = 0 -> timeout = 10000000000)
           /\ (Part001.Timeout cfg <> 0 -> timeout = Part001.Timeout cfg)
           /\ (Part001.Timeout cfg < 0 -> timeout = Part001.Timeout cfg)).
Proof.
  conjuncts; intros cfg; intros; construct; eexists;
    (split; [apply (f_equal2 pair); reflexivity|]); cbn;
    match goal with
    | |- context [(?t =? 0)%Z] => destruct (Z.eqb_spec t 0)
    end; conjuncts; intros; try reflexivity; lia.
Qed.

Lemma NewClient_defaults_only_a_zero_timeout_witness :
  (exists c,
      fst (Part000.NewClient {| Part000.BaseURL := "http://h:1"; Part000.Timeout := -5 |}
             emptyWorld) = (Some c, None)
      /\ http.Timeout (Part000.httpClient c) = -5)
  /\ (exists c,
      fst (ClientGo.NewClient {| ClientGo.BaseURL := "http://h:1";
                                 ClientGo.HMACSecret := "s3cret";
                                 ClientGo.Timeout := 0 |} emptyWorld) = (Some c, None)
      /\ hmac.Timeout (hmac.config (ClientGo.client c)) = 10 * 1000000000).
Proof.
  destruct (@NewClient_defaults_only_a_zero_timeout Demo.env emptyWorld) as (G1 & G2 & _).
  split.
  - destruct (G2 {| Part000.BaseURL := "http://h:1"; Part000.Timeout := -5 |})
      as (c & Hc & _ & _ & Hneg); [discriminate|].
    exists c. split; [now rewrite Hc | apply Hneg; reflexivity].
  - destruct (G1 {| ClientGo.BaseURL := "http://h:1"; ClientGo.HMACSecret := "s3cret";
                    ClientGo.Timeout := 0 |})
      as (c & Hc & Hzero & _); [discriminate | discriminate |].
    exists c. split; [now rewrite Hc | apply Hzero; reflexivity].
Defined.

(** * Further properties *)

(** ** What an [APIError] says *)

Lemma parsedField_nonempty `{Env} (field : errorResp.t -> string) (body : list byte)
    (v : string) :
  parsedField field body = Some v -> v <> "".
Proof.
  unfold parsedField.
  destruct (json_Unmarshal body errorResp.zero) as [resp [e|]]; [discriminate|].
  destruct (String.eqb_spec (field resp) ""); [discriminate|].
  intros E. injection E as <-. assumption.
Qed.

Lemma preferredMessage_empty `{Env} (body : list byte) :
  preferredMessage body = "" -> body = [].
Proof.
  unfold preferredMessage.
  destruct (parsedField errorResp.Error body) as [v|] eqn:Ee.
  - intros ->. now apply parsedField_nonempty in Ee.
  - destruct (parsedField errorResp.Message body) as [v|] eqn:Em.
    + intros ->. now apply parsedField_nonempty in Em.
    + intros E. rewrite <- (list_byte_of_string_of_list_byte body), E. reflexivity.
Qed.

(** X1.  For every status code and body, the text of the error that
    [parseErrorResponse] builds is [mailer service returned status], the
    status in decimal, a colon and the chosen message: the fallback of
    [Error] to the raw body never shows anything else, since the message is
    empty only when the body is. *)
Theorem Error_of_parsed_response `{Env} (statusCode : Z) (body : list byte) :
  APIError_Error (parseErrorResponse statusCode body)
  = "mailer service returned status " ++ Go.fmt_d statusCode ++ ": "
      ++ preferredMessage body.
Proof.
  rewrite parseErrorResponse_run. unfold APIError_Error. cbn [Message Body StatusCode].
  destruct (String.eqb_spec (preferredMessage body) "") as [E|E]; [|reflexivity].
  cbn [negb]. rewrite E, (preferredMessage_empty body E). reflexivity.
Qed.

(** X2.  For every status code, a body that is not empty gives an
    [APIError] whose message is not empty. *)
Theorem nonempty_body_gives_message `{Env} (statusCode : Z) (body : list byte) :
  body <> [] -> Message (parseErrorResponse statusCode body) <> "".
Proof.
  intros Hb E. rewrite parseErrorResponse_run in E. cbn [Message] in E.
  apply Hb. now apply preferredMessage_empty.
Qed.

Lemma nonempty_body_gives_message_witness :
  Message (@parseErrorResponse Outage.env 502 body_unparseable) <> "".
Proof.
  apply (@nonempty_body_gives_message Outage.env 502 body_unparseable). discriminate.
Defined.

(** X3.  [IsAPIError] looks through any number of [fmt.Errorf] wrappings:
    around an [APIError] it finds that error, around a plain error or an
    error of another package it finds none; and on the nil error it gives
    nil and false. *)
Theorem IsAPIError_looks_through_wrapping (prefixes : list string) :
  (forall e, IsAPIError (Some (wrapAll prefixes (apiError e))) = (Some e, true))
  /\ (forall s, IsAPIError (Some (wrapAll prefixes (errorString s))) = (None, false))
  /\ (forall s, IsAPIError (Some (wrapAll prefixes (foreignError s))) = (None, false))
  /\ IsAPIError None = (None, false).
Proof.
  unfold IsAPIError.
  repeat split; intros; induction prefixes as [|p ps IH]; cbn in *; auto.
Qed.

(** ** What the operations do and never do *)

Lemma statusIn_200_false (code : Z) : statusIn code [200] = false -> code <> 200.
Proof. cbn. destruct (Z.eqb_spec code 200); [discriminate | auto]. Qed.

(** X4.  In every list and get operation of the three revisions, an error
    in which [IsAPIError] finds an [APIError] means that the remote side
    rejected the request: the operation made a call, the transport
    delivered a response, the status of the response is not 200, and the
    [APIError] carries that status and the bytes of that body.  A
    validation error, a refused request, a transport failure and a decode
    failure are never an [APIError]. *)
Theorem api_error_means_remote_rejection `{Env} (ctx : context.Context) :
  (forall c q, APIErrorMeansRejected (ClientGo.ListMails c ctx q))
  /\ (forall c id, APIErrorMeansRejected (ClientGo.GetMail c ctx id))
  /\ (forall c q, APIErrorMeansRejected (ClientGo.ListTemplates c ctx q))
  /\ (forall c id, APIErrorMeansRejected (ClientGo.GetTemplate c ctx id))
  /\ (forall c q, APIErrorMeansRejected (ClientGo.ListAttachments c ctx q))
  /\ (forall c id, APIErrorMeansRejected (ClientGo.GetAttachment c ctx id))
  /\ (forall c q, APIErrorMeansRejected (Part000.ListMails c ctx q))
  /\ (forall c id, APIErrorMeansRejected (Part000.GetMail c ctx id))
  /\ (forall c q, APIErrorMeansRejected (Part000.ListTemplates c ctx q))
  /\ (forall c id, APIErrorMeansRejected (Part000.GetTemplate c ctx id))
  /\ (forall c q, APIErrorMeansRejected (Part000.ListAttachments c ctx q))
  /\ (forall c id, APIErrorMeansRejected (Part000.GetAttachment c ctx id))
  /\ (forall c req, APIErrorMeansRejected (Part001.ListMails c ctx req))
  /\ (forall c q, APIErrorMeansRejected (Part001.ListMailsWithQuery c ctx q))
  /\ (forall c id, APIErrorMeansRejected (Part001.GetMail c ctx id))
  /\ (forall c req, APIErrorMeansRejected (Part001.ListTemplates c ctx req))
  /\ (forall c q, APIErrorMeansRejected (Part001.ListTemplatesWithQuery c ctx q))
  /\ (forall c id, APIErrorMeansRejected (Part001.GetTemplate c ctx id))
  /\ (forall c req, APIErrorMeansRejected (Part001.ListAttachments c ctx req))
  /\ (forall c q, APIErrorMeansRejected (Part001.ListAttachmentsWithQuery c ctx q))
  /\ (forall c id, APIErrorMeansRejected (Part001.GetAttachment c ctx id)).
Proof.
  conjuncts; intros; unfold APIErrorMeansRejected; intros w e; unfold_client;
    unfold http.StatusOK; step; on_answers; unfold fmt_Errorf_w;
    cbn -[String.append statusIn parseErrorResponse]; intros E; try discriminate E;
    injection E as <-; eexists; eexists;
    (split; [reflexivity|]); (split; [cbn; eassumption|]);
    (split; [now apply statusIn_200_false|]);
    rewrite parseErrorResponse_run; cbn [StatusCode Body];
    (split; [reflexivity | apply list_byte_of_string_of_list_byte]).
Qed.

Lemma api_error_means_remote_rejection_witness :
  exists call resp,
    calls (snd (@Part001.GetMail Demo.env Demo.plainClient context.Background "gone"
                  emptyWorld)) = [call]
    /\ @respond Demo.env call emptyWorld = inr resp
    /\ http.StatusCode resp <> 200
    /\ http.StatusCode resp = 404.
Proof.
  destruct (@api_error_means_remote_rejection Demo.env context.Background)
    as (_ & _ & _ & _ & _ & _ & _ & _ & _ & _ & _ & _ & _ & _ & G & _).
  destruct (G Demo.plainClient "gone" emptyWorld _ eq_refl)
    as (call & resp & Hc & Hr & Hs & He & _).
  exists call, resp. split; [exact Hc | split; [exact Hr | split; [exact Hs|]]].
  symmetry. exact He.
Defined.

(** X5.  In every list and get operation of the three revisions (a get
    with a non-empty id), in every world where the request of the operation
    is accepted and the transport fails on it, the operation makes exactly
    that one call, gives no result, and returns an error that wraps the
    transport's error, with the text of the operation's prefix, a colon and
    the text of the transport's error. *)
Theorem transport_failure_is_wrapped `{Env} (ctx : context.Context) :
  (forall c q,
        TransportFailureWrapped (hmacGet c (rawQueryPath "/mails" q))
          "failed to list mails" (ClientGo.ListMails c ctx q))
  /\ (forall c id, id <> "" ->
        TransportFailureWrapped (hmacGet c (apiPathPrefix ++ "/mails/" ++ pathSeg id))
          "failed to get mail" (ClientGo.GetMail c ctx id))
  /\ (forall c q,
        TransportFailureWrapped (hmacGet c (rawQueryPath "/templates" q))
          "failed to list templates" (ClientGo.ListTemplates c ctx q))
  /\ (forall c id, id <> "" ->
        TransportFailureWrapped (hmacGet c (apiPathPrefix ++ "/templates/" ++ pathSeg id))
          "failed to get template" (ClientGo.GetTemplate c ctx id))
  /\ (forall c q,
        TransportFailureWrapped (hmacGet c (rawQueryPath "/attachments" q))
          "failed to list attachments" (ClientGo.ListAttachments c ctx q))
  /\ (forall c id, id <> "" ->
        TransportFailureWrapped (hmacGet c (apiPathPrefix ++ "/attachments/" ++ pathSeg id))
          "failed to get attachment" (ClientGo.GetAttachment c ctx id))
  /\ (forall c q,
        TransportFailureWrapped (httpGet (Part000.httpClient c) context.Background
           (Part000.baseURL c ++ rawQueryPath "/mails" q))
          "failed to list mails" (Part000.ListMails c ctx q))
  /\ (forall c id, id <> "" ->
        TransportFailureWrapped (httpGet (Part000.httpClient c) context.Background
           (Part000.baseURL c ++ apiPathPrefix ++ "/mails/" ++ pathSeg id))
          "failed to get mail" (Part000.GetMail c ctx id))
  /\ (forall c q,
        TransportFailureWrapped (httpGet (Part000.httpClient c) context.Background
           (Part000.baseURL c ++ rawQueryPath "/templates" q))
          "failed to list templates" (Part000.ListTemplates c ctx q))
  /\ (forall c id, id <> "" ->
        TransportFailureWrapped (httpGet (Part000.httpClient c) context.Background
           (Part000.baseURL c ++ apiPathPrefix ++ "/templates/" ++ pathSeg id))
          "failed to get template" (Part000.GetTemplate c ctx id))
  /\ (forall c q,
        TransportFailureWrapped (httpGet (Part000.httpClient c) context.Background
           (Part000.baseURL c ++ rawQueryPath "/attachments" q))
          "failed to list attachments" (Part000.ListAttachments c ctx q))
  /\ (forall c id, id <> "" ->
        TransportFailureWrapped (httpGet (Part000.httpClient c) context.Background
           (Part000.baseURL c ++ apiPathPrefix ++ "/attachments/" ++ pathSeg id))
          "failed to get attachment" (Part000.GetAttachment c ctx id))
  /\ (forall c req,
        TransportFailureWrapped (httpGet (Part001.client c) ctx (Part001.ListMails_path c req))
          "failed to list mails" (Part001.ListMails c ctx req))
  /\ (forall c q,
        TransportFailureWrapped (httpGet (Part001.client c) ctx
           (Part001.rawQuery_path c "/mails" q))
          "failed to list mails" (Part001.ListMailsWithQuery c ctx q))
  /\ (forall c id, id <> "" ->
        TransportFailureWrapped (httpGet (Part001.client c) ctx
           (Part001.baseURL c ++ apiPathPrefix ++ "/mails/" ++ pathSeg id))
          "failed to get mail" (Part001.GetMail c ctx id))
  /\ (forall c req,
        TransportFailureWrapped (httpGet (Part001.client c) ctx (Part001.ListTemplates_path c req))
          "failed to list templates" (Part001.ListTemplates c ctx req))
  /\ (forall c q,
        TransportFailureWrapped (httpGet (Part001.client c) ctx
           (Part001.rawQuery_path c "/templates" q))
          "failed to list templates" (Part001.ListTemplatesWithQuery c ctx q))
  /\ (forall c id, id <> "" ->
        TransportFailureWrapped (httpGet (Part001.client c) ctx
           (Part001.baseURL c ++ apiPathPrefix ++ "/templates/" ++ pathSeg id))
          "failed to get template" (Part001.GetTemplate c ctx id))
  /\ (forall c req,
        TransportFailureWrapped (httpGet (Part001.client c) ctx
           (Part001.ListAttachments_path c req))
          "failed to list attachments" (Part001.ListAttachments c ctx req))
  /\ (forall c q,
        TransportFailureWrapped (httpGet (Part001.client c) ctx
           (Part001.rawQuery_path c "/attachments" q))
          "failed to list attachments" (Part001.ListAttachmentsWithQuery c ctx q))
  /\ (forall c id, id <> "" ->
        TransportFailureWrapped (httpGet (Part001.client c) ctx
           (Part001.baseURL c ++ apiPathPrefix ++ "/attachments/" ++ pathSeg id))
          "failed to get attachment" (Part001.GetAttachment c ctx id)).
Proof.
  conjuncts; intros; unfold TransportFailureWrapped; intros w e; answered; reflexivity.
Qed.

Lemma transport_failure_is_wrapped_witness :
  @ClientGo.ListMails Outage.env Demo.hmacClient context.Background "page=1" emptyWorld
  = ((None, Some (wrapError "failed to list mails: connection refused"
                    (foreignError "connection refused"))),
     afterCall emptyWorld (hmacGet Demo.hmacClient "/api/v1/mails?page=1"))
  /\ @Part001.GetMail Outage.env Demo.plainClient context.Background "m1" emptyWorld
     = ((None, Some (wrapError "failed to get mail: connection refused"
                       (foreignError "connection refused"))),
        afterCall emptyWorld
          (httpGet (Part001.client Demo.plainClient) context.Background
             "http://h:1/api/v1/mails/m1")).
Proof.
  assert (Hm1 : "m1" <> "") by discriminate.
  destruct (@transport_failure_is_wrapped Outage.env context.Background)
    as (G1 & _ & _ & _ & _ & _ & _ & _ & _ & _ & _ & _ & _ & _ & G15 & _).
  split.
  - exact (G1 Demo.hmacClient "page=1" emptyWorld _ I eq_refl).
  - exact (G15 Demo.plainClient "m1" Hm1 emptyWorld _ eq_refl eq_refl).
Defined.

(** X6.  Every list and get operation of the three revisions leaves the
    created capabilities as they are and adds no call or exactly one call to
    the log: nothing is retried. *)
Theorem operations_call_at_most_once `{Env} (ctx : context.Context) :
  (forall c q, AtMostOneCall (ClientGo.ListMails c ctx q))
  /\ (forall c id, AtMostOneCall (ClientGo.GetMail c ctx id))
  /\ (forall c q, AtMostOneCall (ClientGo.ListTemplates c ctx q))
  /\ (forall c id, AtMostOneCall (ClientGo.GetTemplate c ctx id))
  /\ (forall c q, AtMostOneCall (ClientGo.ListAttachments c ctx q))
  /\ (forall c id, AtMostOneCall (ClientGo.GetAttachment c ctx id))
  /\ (forall c q, AtMostOneCall (Part000.ListMails c ctx q))
  /\ (forall c id, AtMostOneCall (Part000.GetMail c ctx id))
  /\ (forall c q, AtMostOneCall (Part000.ListTemplates c ctx q))
  /\ (forall c id, AtMostOneCall (Part000.GetTemplate c ctx id))
  /\ (forall c q, AtMostOneCall (Part000.ListAttachments c ctx q))
  /\ (forall c id, AtMostOneCall (Part000.GetAttachment c ctx id))
  /\ (forall c req, AtMostOneCall (Part001.ListMails c ctx req))
  /\ (forall c q, AtMostOneCall (Part001.ListMailsWithQuery c ctx q))
  /\ (forall c id, AtMostOneCall (Part001.GetMail c ctx id))
  /\ (forall c req, AtMostOneCall (Part001.ListTemplates c ctx req))
  /\ (forall c q, AtMostOneCall (Part001.ListTemplatesWithQuery c ctx q))
  /\ (forall c id, AtMostOneCall (Part001.GetTemplate c ctx id))
  /\ (forall c req, AtMostOneCall (Part001.ListAttachments c ctx req))
  /\ (forall c q, AtMostOneCall (Part001.ListAttachmentsWithQuery c ctx q))
  /\ (forall c id, AtMostOneCall (Part001.GetAttachment c ctx id)).
Proof.
  conjuncts; intros; unfold AtMostOneCall; intros w; unfold_client;
    unfold http.StatusOK; step; on_answers;
    (split; [reflexivity | first [left; reflexivity | right; eexists; reflexivity]]).
Qed.

(** X7.  Every call that a list or get operation makes is a GET without a
    body; over HTTP it has no content type, and its context is the caller's
    in [part_001] and the background context, whatever the caller passed,
    in [part_000]. *)
Theorem operations_send_bodyless_GET `{Env} (ctx : context.Context) :
  (forall c q, OnlySends (bodylessGet ctx) (ClientGo.ListMails c ctx q))
  /\ (forall c id, OnlySends (bodylessGet ctx) (ClientGo.GetMail c ctx id))
  /\ (forall c q, OnlySends (bodylessGet ctx) (ClientGo.ListTemplates c ctx q))
  /\ (forall c id, OnlySends (bodylessGet ctx) (ClientGo.GetTemplate c ctx id))
  /\ (forall c q, OnlySends (bodylessGet ctx) (ClientGo.ListAttachments c ctx q))
  /\ (forall c id, OnlySends (bodylessGet ctx) (ClientGo.GetAttachment c ctx id))
  /\ (forall c q, OnlySends (bodylessGet context.Background) (Part000.ListMails c ctx q))
  /\ (forall c id, OnlySends (bodylessGet context.Background) (Part000.GetMail c ctx id))
  /\ (forall c q, OnlySends (bodylessGet context.Background) (Part000.ListTemplates c ctx q))
  /\ (forall c id, OnlySends (bodylessGet context.Background) (Part000.GetTemplate c ctx id))
  /\ (forall c q, OnlySends (bodylessGet context.Background) (Part000.ListAttachments c ctx q))
  /\ (forall c id, OnlySends (bodylessGet context.Background) (Part000.GetAttachment c ctx id))
  /\ (forall c req, OnlySends (bodylessGet ctx) (Part001.ListMails c ctx req))
  /\ (forall c q, OnlySends (bodylessGet ctx) (Part001.ListMailsWithQuery c ctx q))
  /\ (forall c id, OnlySends (bodylessGet ctx) (Part001.GetMail c ctx id))
  /\ (forall c req, OnlySends (bodylessGet ctx) (Part001.ListTemplates c ctx req))
  /\ (forall c q, OnlySends (bodylessGet ctx) (Part001.ListTemplatesWithQuery c ctx q))
  /\ (forall c id, OnlySends (bodylessGet ctx) (Part001.GetTemplate c ctx id))
  /\ (forall c req, OnlySends (bodylessGet ctx) (Part001.ListAttachments c ctx req))
  /\ (forall c q, OnlySends (bodylessGet ctx) (Part001.ListAttachmentsWithQuery c ctx q))
  /\ (forall c id, OnlySends (bodylessGet ctx) (Part001.GetAttachment c ctx id)).
Proof.
  conjuncts; intros; unfold OnlySends; intros w call; unfold_client;
    unfold http.StatusOK; step; on_answers; intros Hcalls; step_in Hcalls;
    try same_call; cbn; auto.
Qed.

Lemma operations_send_bodyless_GET_witness :
  bodylessGet context.Background
    (httpDo (Part000.httpClient Demo.plainClient0)
       (getRequest context.Background "http://h:1/api/v1/templates?page=2")).
Proof.
  destruct (@operations_send_bodyless_GET Demo.env (context.Derived context.Background "t"))
    as (_ & _ & _ & _ & _ & _ & _ & _ & G & _).
  exact (G Demo.plainClient0 "page=2" emptyWorld _ eq_refl).
Defined.

(** X8.  In the two plain HTTP revisions, when net/http refuses to build the
    request for the URL of an operation (a get operation with a non-empty
    id), the operation gives no result and that error under its prefix, and
    the world stays as it was: nothing is sent. *)
Theorem refused_request_is_not_sent `{Env} (ctx : context.Context) :
  (forall c q,
        RefusedBeforeSending context.Background (Part000.baseURL c ++ rawQueryPath "/mails" q)
          "failed to list mails" (Part000.ListMails c ctx q))
  /\ (forall c id, id <> "" ->
        RefusedBeforeSending context.Background
          (Part000.baseURL c ++ apiPathPrefix ++ "/mails/" ++ pathSeg id)
          "failed to get mail" (Part000.GetMail c ctx id))
  /\ (forall c q,
        RefusedBeforeSending context.Background (Part000.baseURL c ++ rawQueryPath "/templates" q)
          "failed to list templates" (Part000.ListTemplates c ctx q))
  /\ (forall c id, id <> "" ->
        RefusedBeforeSending context.Background
          (Part000.baseURL c ++ apiPathPrefix ++ "/templates/" ++ pathSeg id)
          "failed to get template" (Part000.GetTemplate c ctx id))
  /\ (forall c q,
        RefusedBeforeSending context.Background (Part000.baseURL c ++ rawQueryPath "/attachments" q)
          "failed to list attachments" (Part000.ListAttachments c ctx q))
  /\ (forall c id, id <> "" ->
        RefusedBeforeSending context.Background
          (Part000.baseURL c ++ apiPathPrefix ++ "/attachments/" ++ pathSeg id)
          "failed to get attachment" (Part000.GetAttachment c ctx id))
  /\ (forall c req,
        RefusedBeforeSending ctx (Part001.ListMails_path c req)
          "failed to list mails" (Part001.ListMails c ctx req))
  /\ (forall c q,
        RefusedBeforeSending ctx (Part001.rawQuery_path c "/mails" q)
          "failed to list mails" (Part001.ListMailsWithQuery c ctx q))
  /\ (forall c id, id <> "" ->
        RefusedBeforeSending ctx (Part001.baseURL c ++ apiPathPrefix ++ "/mails/" ++ pathSeg id)
          "failed to get mail" (Part001.GetMail c ctx id))
  /\ (forall c req,
        RefusedBeforeSending ctx (Part001.ListTemplates_path c req)
          "failed to list templates" (Part001.ListTemplates c ctx req))
  /\ (forall c q,
        RefusedBeforeSending ctx (Part001.rawQuery_path c "/templates" q)
          "failed to list templates" (Part001.ListTemplatesWithQuery c ctx q))
  /\ (forall c id, id <> "" ->
        RefusedBeforeSending ctx (Part001.baseURL c ++ apiPathPrefix ++ "/templates/" ++ pathSeg id)
          "failed to get template" (Part001.GetTemplate c ctx id))
  /\ (forall c req,
        RefusedBeforeSending ctx (Part001.ListAttachments_path c req)
          "failed to list attachments" (Part001.ListAttachments c ctx req))
  /\ (forall c q,
        RefusedBeforeSending ctx (Part001.rawQuery_path c "/attachments" q)
          "failed to list attachments" (Part001.ListAttachmentsWithQuery c ctx q))
  /\ (forall c id, id <> "" ->
        RefusedBeforeSending ctx
          (Part001.baseURL c ++ apiPathPrefix ++ "/attachments/" ++ pathSeg id)
          "failed to get attachment" (Part001.GetAttachment c ctx id)).
Proof.
  conjuncts; intros; unfold RefusedBeforeSending; intros w e; unfold_client;
    unfold http.MethodGet, rawQueryPath, Part001.rawQuery_path;
    repeat match goal with
           | Hid : _ <> "" |- _ => rewrite (proj2 (String.eqb_neq _ _) Hid); clear Hid
           end;
    try match goal with |- context [?q =? ""] => destruct (q =? "") end;
    cbn [negb]; cbv beta iota zeta; intros Hrefused; rewrite Hrefused; reflexivity.
Qed.

Lemma refused_request_is_not_sent_witness :
  @Part001.GetMail Demo.env Demo.plainClient context.Nil "m1" emptyWorld
  = ((None, Some (wrapError "failed to get mail: net/http: nil Context"
                    (foreignError "net/http: nil Context"))), emptyWorld).
Proof.
  destruct (@refused_request_is_not_sent Demo.env context.Nil)
    as (_ & _ & _ & _ & _ & _ & _ & _ & G & _).
  apply (G Demo.plainClient "m1"); [discriminate | reflexivity].
Defined.

(** X9.  A raw query string is forwarded as it is: a list operation of
    [client.go] and [part_000], and a [...WithQuery] operation of
    [part_001], calls the list path alone when the query string is empty,
    and otherwise the list path, a [?] and the query string, byte for byte.
    The HMAC revision always makes that one call; the plain revisions make
    it whenever net/http accepts the request. *)
Theorem raw_query_is_forwarded_verbatim `{Env} (ctx : context.Context) :
  (forall c q w,
        calls (snd (ClientGo.ListMails c ctx q w))
        = (calls w ++ [hmacDoRequest (ClientGo.client c) "GET"
                         (rawQueryPath "/mails" q) None])%list)
  /\ (forall c q w,
        calls (snd (ClientGo.ListTemplates c ctx q w))
        = (calls w ++ [hmacDoRequest (ClientGo.client c) "GET"
                         (rawQueryPath "/templates" q) None])%list)
  /\ (forall c q w,
        calls (snd (ClientGo.ListAttachments c ctx q w))
        = (calls w ++ [hmacDoRequest (ClientGo.client c) "GET"
                         (rawQueryPath "/attachments" q) None])%list)
  /\ (forall c q w,
        http_requestError context.Background "GET"
          (Part000.baseURL c ++ rawQueryPath "/mails" q) = None ->
        calls (snd (Part000.ListMails c ctx q w))
        = (calls w ++ [httpGet (Part000.httpClient c) context.Background
                         (Part000.baseURL c ++ rawQueryPath "/mails" q)])%list)
  /\ (forall c q w,
        http_requestError context.Background "GET"
          (Part000.baseURL c ++ rawQueryPath "/templates" q) = None ->
        calls (snd (Part000.ListTemplates c ctx q w))
        = (calls w ++ [httpGet (Part000.httpClient c) context.Background
                         (Part000.baseURL c ++ rawQueryPath "/templates" q)])%list)
  /\ (forall c q w,
        http_requestError context.Background "GET"
          (Part000.baseURL c ++ rawQueryPath "/attachments" q) = None ->
        calls (snd (Part000.ListAttachments c ctx q w))
        = (calls w ++ [httpGet (Part000.httpClient c) context.Background
                         (Part000.baseURL c ++ rawQueryPath "/attachments" q)])%list)
  /\ (forall c q w,
        http_requestError ctx "GET" (Part001.baseURL c ++ rawQueryPath "/mails" q) = None ->
        calls (snd (Part001.ListMailsWithQuery c ctx q w))
        = (calls w ++ [httpGet (Part001.client c) ctx
                         (Part001.baseURL c ++ rawQueryPath "/mails" q)])%list)
  /\ (forall c q w,
        http_requestError ctx "GET" (Part001.baseURL c ++ rawQueryPath "/templates" q) = None ->
        calls (snd (Part001.ListTemplatesWithQuery c ctx q w))
        = (calls w ++ [httpGet (Part001.client c) ctx
                         (Part001.baseURL c ++ rawQueryPath "/templates" q)])%list)
  /\ (forall c q w,
        http_requestError ctx "GET" (Part001.baseURL c ++ rawQueryPath "/attachments" q) = None ->
        calls (snd (Part001.ListAttachmentsWithQuery c ctx q w))
        = (calls w ++ [httpGet (Part001.client c) ctx
                         (Part001.baseURL c ++ rawQueryPath "/attachments" q)])%list).
Proof.
  conjuncts; intros c q w; unfold_client;
    unfold httpGet, getRequest, rawQueryPath, Part001.rawQuery_path, http.MethodGet,
      http.StatusOK;
    destruct (q =? ""); cbn [negb]; cbv beta iota zeta; rewrite ?append_assoc;
    try (let Haccepted := fresh "Haccepted" in intros Haccepted; rewrite Haccepted);
    step; on_answers; reflexivity.
Qed.

Lemma raw_query_is_forwarded_verbatim_witness :
  calls (snd (@Part001.ListAttachmentsWithQuery Demo.env Demo.plainClient
                context.Background "mail_id=a b&page=1" emptyWorld))
  = [httpGet (Part001.client Demo.plainClient) context.Background
       "http://h:1/api/v1/attachments?mail_id=a b&page=1"].
Proof.
  destruct (@raw_query_is_forwarded_verbatim Demo.env context.Background)
    as (_ & _ & _ & _ & _ & _ & _ & _ & G).
  exact (G Demo.plainClient "mail_id=a b&page=1" emptyWorld eq_refl).
Defined.

(** ** Structured requests and raw queries *)

(** X10.  A structured list operation of [part_001] is the [...WithQuery]
    operation on the query string built from the fields that filter: the
    same result, the same calls. *)
Theorem structured_list_is_raw_list_on_built_query `{Env} (c : Part001.Client)
    (ctx : context.Context) (w : World) :
  (forall req,
      Part001.ListMails c ctx req w
      = Part001.ListMailsWithQuery c ctx (builtQuery (mailFilters req)) w)
  /\ (forall req,
      Part001.ListTemplates c ctx req w
      = Part001.ListTemplatesWithQuery c ctx (builtQuery (templateFilters req)) w)
  /\ (forall req,
      Part001.ListAttachments c ctx req w
      = Part001.ListAttachmentsWithQuery c ctx (builtQuery (attachmentFilters req)) w).
Proof.
  conjuncts; intros req.
  - unfold Part001.ListMails, Part001.ListMailsWithQuery.
    replace (Part001.ListMails_path c req)
      with (Part001.rawQuery_path c "/mails" (builtQuery (mailFilters req)));
      [reflexivity|].
    unfold Part001.ListMails_path, Part001.rawQuery_path, builtQuery, queryOf, mailFilters,
      filtersOn.
    rewrite !Z.gtb_ltb. cbn [filter snd fst].
    destruct (0 <? Part001.ListMailsRequest.Page req)%Z;
      destruct (0 <? Part001.ListMailsRequest.PerPage req)%Z;
      destruct (Part001.ListMailsRequest.Service req =? "");
      destruct (Part001.ListMailsRequest.Type_ req =? "");
      destruct (Part001.ListMailsRequest.Status req =? "");
      reflexivity.
  - unfold Part001.ListTemplates, Part001.ListTemplatesWithQuery.
    replace (Part001.ListTemplates_path c req)
      with (Part001.rawQuery_path c "/templates" (builtQuery (templateFilters req)));
      [reflexivity|].
    unfold Part001.ListTemplates_path, Part001.rawQuery_path, builtQuery, queryOf,
      templateFilters, filtersOn.
    rewrite !Z.gtb_ltb. cbn [filter snd fst].
    destruct (0 <? Part001.ListTemplatesRequest.Page req)%Z;
      destruct (0 <? Part001.ListTemplatesRequest.PerPage req)%Z;
      reflexivity.
  - unfold Part001.ListAttachments, Part001.ListAttachmentsWithQuery.
    replace (Part001.ListAttachments_path c req)
      with (Part001.rawQuery_path c "/attachments" (builtQuery (attachmentFilters req)));
      [reflexivity|].
    unfold Part001.ListAttachments_path, Part001.rawQuery_path, builtQuery, queryOf,
      attachmentFilters, filtersOn.
    rewrite !Z.gtb_ltb. cbn [filter snd fst].
    destruct (0 <? Part001.ListAttachmentsRequest.Page req)%Z;
      destruct (0 <? Part001.ListAttachmentsRequest.PerPage req)%Z;
      destruct (Part001.ListAttachmentsRequest.MailID req =? "");
      reflexivity.
Qed.

(** ** Query values *)

Lemma query_escape_cons (c : ascii) (r : string) :
  Go.escape (String c r) Go.encodeQueryComponent
  = Go.escape (String c EmptyString) Go.encodeQueryComponent
      ++ Go.escape r Go.encodeQueryComponent.
Proof.
  cbn. destruct (Ascii.eqb c " "); [reflexivity|].
  destruct (Go.shouldEscape c Go.encodeQueryComponent); reflexivity.
Qed.

Lemma query_unescape_escaped_byte (c : ascii) (rest : string) :
  Go.unescape (Go.escape (String c EmptyString) Go.encodeQueryComponent ++ rest)
              Go.encodeQueryComponent
  = option_map (String c) (Go.unescape rest Go.encodeQueryComponent).
Proof. destruct c as [[] [] [] [] [] [] [] []]; reflexivity. Qed.

Lemma query_escaped_byte_has_no_breaker (c sep : ascii) :
  In sep queryBreakers ->
  Go.ContainsByte (Go.escape (String c EmptyString) Go.encodeQueryComponent) sep = false.
Proof.
  intros Hsep.
  destruct Hsep as [<-|[<-|[<-|[<-|[<-|[<-|[]]]]]]];
    destruct c as [[] [] [] [] [] [] [] []]; reflexivity.
Qed.

Lemma QueryEscape_has_no_breaker (s : string) (sep : ascii) :
  In sep queryBreakers -> Go.ContainsByte (Go.QueryEscape s) sep = false.
Proof.
  intros Hsep. unfold Go.QueryEscape.
  induction s as [|c r IH]; [reflexivity|].
  rewrite query_escape_cons, ContainsByte_app, IH, query_escaped_byte_has_no_breaker
    by assumption.
  reflexivity.
Qed.

(** X11.  For every string, [url.QueryEscape] gives a value that holds none
    of the bytes [&], [=], [#], [?], space and [/], and that
    [url.QueryUnescape] turns back into the string. *)
Theorem QueryEscape_round_trip (s : string) :
  Go.QueryUnescape (Go.QueryEscape s) = Some s
  /\ (forall sep, In sep queryBreakers -> Go.ContainsByte (Go.QueryEscape s) sep = false).
Proof.
  split.
  - unfold Go.QueryUnescape, Go.QueryEscape.
    induction s as [|c r IH]; [reflexivity|].
    rewrite query_escape_cons, query_unescape_escaped_byte, IH. reflexivity.
  - intros sep Hsep. now apply QueryEscape_has_no_breaker.
Qed.

Lemma QueryEscape_round_trip_witness :
  Go.QueryEscape "a&b=c d" = "a%26b%3Dc+d"
  /\ Go.ContainsByte (Go.QueryEscape "a&b=c d") "&" = false.
Proof.
  split; [reflexivity|].
  apply (proj2 (QueryEscape_round_trip "a&b=c d")). cbn. auto.
Defined.

Lemma uint_digits_have_no_breaker (d : Decimal.uint) (sep : ascii) :
  In sep queryBreakers -> Go.ContainsByte (NilEmpty.string_of_uint d) sep = false.
Proof.
  intros Hsep.
  destruct Hsep as [<-|[<-|[<-|[<-|[<-|[<-|[]]]]]]];
    induction d; cbn; auto.
Qed.

Lemma fmt_d_has_no_breaker (n : Z) (sep : ascii) :
  In sep queryBreakers -> Go.ContainsByte (Go.fmt_d n) sep = false.
Proof.
  intros Hsep. unfold Go.fmt_d, NilZero.string_of_int, NilZero.string_of_uint.
  pose proof (uint_digits_have_no_breaker) as Hd.
  destruct (Z.to_int n) as [d|d].
  - destruct d; try (apply Hd; assumption).
    destruct Hsep as [<-|[<-|[<-|[<-|[<-|[<-|[]]]]]]]; reflexivity.
  - cbn [Go.ContainsByte]. rewrite orb_false_iff. split.
    + destruct Hsep as [<-|[<-|[<-|[<-|[<-|[<-|[]]]]]]]; reflexivity.
    + destruct d; try (apply Hd; assumption).
      destruct Hsep as [<-|[<-|[<-|[<-|[<-|[<-|[]]]]]]]; reflexivity.
Qed.

Lemma renderValue_has_no_breaker (v : FilterValue) (sep : ascii) :
  In sep queryBreakers -> Go.ContainsByte (renderValue v) sep = false.
Proof.
  destruct v; cbn [renderValue];
    [apply fmt_d_has_no_breaker | apply QueryEscape_has_no_breaker].
Qed.

Lemma Split_head (x rest : string) (sep : ascii) :
  Go.ContainsByte x sep = false ->
  Go.Split (x ++ String sep rest) sep = x :: Go.Split rest sep.
Proof.
  induction x as [|c r IH]; cbn.
  - intros _. now rewrite Ascii.eqb_refl.
  - intros Hc. apply orb_false_iff in Hc. destruct Hc as [Hc Hr].
    rewrite Hc, (IH Hr). reflexivity.
Qed.

Lemma Split_Join (params : list string) (sep : ascii) :
  params <> [] ->
  Forall (fun p => Go.ContainsByte p sep = false) params ->
  Go.Split (Go.Join params (String sep EmptyString)) sep = params.
Proof.
  unfold Go.Join. intros Hne Hall.
  induction Hall as [|p ps Hp Hps IH]; [contradiction|].
  destruct ps as [|p' ps'].
  - cbn. now apply Split_without_sep.
  - change (String.concat (String sep "") (p :: p' :: ps'))
      with (p ++ String sep (String.concat (String sep "") (p' :: ps'))).
    rewrite Split_head by assumption.
    rewrite IH by discriminate. reflexivity.
Qed.

Lemma renderParam_eq (kv : string * FilterValue) :
  renderParam kv = fst kv ++ "=" ++ renderValue (snd kv).
Proof. unfold renderParam. destruct (snd kv); reflexivity. Qed.

Lemma Split_param (k : string) (v : FilterValue) :
  Go.ContainsByte k "=" = false ->
  Go.Split (renderParam (k, v)) "=" = [k; renderValue v].
Proof.
  intros Hk. rewrite renderParam_eq. cbn [fst snd].
  change (k ++ "=" ++ renderValue v) with (k ++ String "=" (renderValue v)).
  rewrite Split_head by assumption.
  rewrite Split_without_sep; [reflexivity|].
  apply renderValue_has_no_breaker. cbn. auto.
Qed.

Lemma param_has_no_ampersand (k : string) (v : FilterValue) :
  Go.ContainsByte k "&" = false -> Go.ContainsByte (renderParam (k, v)) "&" = false.
Proof.
  intros Hk. rewrite renderParam_eq. cbn [fst snd].
  rewrite !ContainsByte_app, Hk, renderValue_has_no_breaker by (cbn; auto).
  reflexivity.
Qed.

Lemma built_query_splits (fields : list (string * FilterValue)) :
  plainKeys fields -> SplitsIntoParameters fields.
Proof.
  intros Hkeys. split.
  - intros Hne. unfold builtQuery. apply (@Split_Join _ "&"%char); [assumption|].
    unfold queryOf. apply Forall_map. apply Forall_forall. intros [k v] Hin.
    apply filter_In in Hin. destruct Hin as [Hin _].
    apply param_has_no_ampersand.
    unfold plainKeys in Hkeys. rewrite Forall_forall in Hkeys.
    exact (proj1 (Hkeys _ Hin)).
  - unfold queryOf. rewrite map_map. apply map_ext_in. intros [k v] Hin.
    apply filter_In in Hin. destruct Hin as [Hin _].
    apply Split_param.
    unfold plainKeys in Hkeys. rewrite Forall_forall in Hkeys.
    exact (proj2 (Hkeys _ Hin)).
Qed.

(** X12.  Whatever the values of a structured list request are, the query
    string built from it splits back into its parameters: at [&] into
    exactly one piece for each field that filters, in order, and each piece
    at [=] into the parameter's name and its value, decimal or escaped.  No
    filter value can add or alter a parameter. *)
Theorem built_query_splits_into_parameters :
  (forall req, SplitsIntoParameters (mailFilters req))
  /\ (forall req, SplitsIntoParameters (templateFilters req))
  /\ (forall req, SplitsIntoParameters (attachmentFilters req)).
Proof.
  conjuncts; intros req; apply built_query_splits; unfold plainKeys;
    repeat constructor.
Qed.

Lemma built_query_splits_into_parameters_witness :
  Go.Split (builtQuery (mailFilters
              {| Part001.ListMailsRequest.Page := 2; Part001.ListMailsRequest.PerPage := 0;
                 Part001.ListMailsRequest.Service := "a&b=c";
                 Part001.ListMailsRequest.Type_ := "";
                 Part001.ListMailsRequest.Status := "sent" |})) "&"
  = ["page=2"; "service=a%26b%3Dc"; "status=sent"].
Proof.
  refine (proj1 (proj1 built_query_splits_into_parameters
                   {| Part001.ListMailsRequest.Page := 2;
                      Part001.ListMailsRequest.PerPage := 0;
                      Part001.ListMailsRequest.Service := "a&b=c";
                      Part001.ListMailsRequest.Type_ := "";
                      Part001.ListMailsRequest.Status := "sent" |}) _).
  intros E. cbv in E. discriminate E.
Defined.

(** ** The request helpers *)

(** X13.  [doRequest] of [part_000] with a body: when the body cannot be
    marshalled, nothing is sent and the error is the marshalling error under
    the prefix [marshal body]; when it can, and net/http accepts the
    request, the one call made goes to the base URL followed by the path,
    with the marshalled bytes as body and the content type
    [application/json].  Without a body the request has neither; and an
    error of net/http on building the request comes back as it is, with
    nothing sent. *)
Theorem doRequest_handles_the_body `{Env} (c : Part000.Client) (method path : string)
    (w : World) :
  (forall b raw e,
      json_Marshal b = (raw, Some e) ->
      Part000.doRequest c method path (Some b) w
      = (inl (wrapError ("marshal body: " ++ e) (foreignError e)), w))
  /\ (forall b raw,
      json_Marshal b = (raw, None) ->
      http_requestError context.Background method (Part000.baseURL c ++ path) = None ->
      calls (snd (Part000.doRequest c method path (Some b) w))
      = (calls w ++ [httpDo (Part000.httpClient c)
                       {| http.Ctx := context.Background; http.Method := method;
                          http.URL := Part000.baseURL c ++ path;
                          http.ReqBody := Some raw;
                          http.ContentType := Some "application/json" |}])%list)
  /\ (http_requestError context.Background method (Part000.baseURL c ++ path) = None ->
      calls (snd (Part000.doRequest c method path None w))
      = (calls w ++ [httpDo (Part000.httpClient c)
                       {| http.Ctx := context.Background; http.Method := method;
                          http.URL := Part000.baseURL c ++ path;
                          http.ReqBody := None; http.ContentType := None |}])%list)
  /\ (forall e,
      http_requestError context.Background method (Part000.baseURL c ++ path) = Some e ->
      Part000.doRequest c method path None w = (inl (foreignError e), w)).
Proof.
  conjuncts; intros; unfold_client.
  - rewrite H0. reflexivity.
  - rewrite H0, H1. cbn. destruct (http_roundTrip _ _ _); reflexivity.
  - rewrite H0. cbn. destruct (http_roundTrip _ _ _); reflexivity.
  - rewrite H0. reflexivity.
Qed.

Lemma doRequest_handles_the_body_witness :
  @Part000.doRequest Outage.env Demo.plainClient0 "POST" "/api/v1/mails"
    (Some json.Null) emptyWorld
  = (inl (wrapError "marshal body: json: unsupported type"
            (foreignError "json: unsupported type")), emptyWorld)
  /\ calls (snd (@Part000.doRequest Demo.env Demo.plainClient0 "POST" "/api/v1/mails"
                   (Some json.Null) emptyWorld))
     = [httpDo (Part000.httpClient Demo.plainClient0)
          {| http.Ctx := context.Background; http.Method := "POST";
             http.URL := "http://h:1/api/v1/mails";
             http.ReqBody := Some (list_byte_of_string "{}");
             http.ContentType := Some "application/json" |}].
Proof.
  split.
  - exact (proj1 (@doRequest_handles_the_body Outage.env Demo.plainClient0 "POST"
                    "/api/v1/mails" emptyWorld) json.Null [] _ eq_refl).
  - exact (proj1 (proj2 (@doRequest_handles_the_body Demo.env Demo.plainClient0 "POST"
                           "/api/v1/mails" emptyWorld)) json.Null _ eq_refl eq_refl).
Defined.

(** X14.  [do] with a nil result does not decode: in each revision, when
    the transport delivers a response with an accepted status, [do] with no
    result target returns no error, whatever the body holds. *)
Theorem do_without_result_skips_decoding `{Env} (T : Type) (accepted : list Z)
    (wrapErr method path : string) :
  (forall c body w call resp,
      calls (snd (ClientGo.do (T := T) c method path body accepted None wrapErr w))
        = (calls w ++ [call])%list ->
      respond call w = inr resp ->
      statusIn (http.StatusCode resp) accepted = true ->
      fst (ClientGo.do (T := T) c method path body accepted None wrapErr w) = (None, None))
  /\ (forall c body w call resp,
      calls (snd (Part000.do (T := T) c method path body accepted None wrapErr w))
        = (calls w ++ [call])%list ->
      respond call w = inr resp ->
      statusIn (http.StatusCode resp) accepted = true ->
      fst (Part000.do (T := T) c method path body accepted None wrapErr w) = (None, None))
  /\ (forall c ctx w call resp,
      calls (snd (Part001.do (T := T) c ctx method path accepted None wrapErr w))
        = (calls w ++ [call])%list ->
      respond call w = inr resp ->
      statusIn (http.StatusCode resp) accepted = true ->
      fst (Part001.do (T := T) c ctx method path accepted None wrapErr w) = (None, None)).
Proof.
  conjuncts; intros until resp; unfold_client; step; on_answers;
    intros Hcalls Hresp Hstatus; step_in Hcalls; try same_call; step_in Hresp; agree;
    congruence.
Qed.

Lemma do_without_result_skips_decoding_witness :
  fst (@Part001.do Demo.env GetMailResponse.t Demo.plainClient context.Background "GET"
         "http://h:1/api/v1/mails/broken" [200] None "failed to get mail" emptyWorld)
  = (None, None)
  /\ fst (@Part001.do Demo.env GetMailResponse.t Demo.plainClient context.Background "GET"
            "http://h:1/api/v1/mails/broken" [200] (Some GetMailResponse.zero)
            "failed to get mail" emptyWorld)
     = (Some GetMailResponse.zero,
        Some (wrapError "failed to get mail: unexpected end of JSON input"
                (foreignError "unexpected end of JSON input"))).
Proof.
  split; [|reflexivity].
  exact (proj2 (proj2 (@do_without_result_skips_decoding Demo.env GetMailResponse.t [200]
                         "failed to get mail" "GET" "http://h:1/api/v1/mails/broken"))
           Demo.plainClient context.Background emptyWorld _ _ eq_refl eq_refl eq_refl).
Defined.

(** X15.  [statusIn] is membership: it gives true exactly for the codes
    that occur in the list; on the empty list it gives false. *)
Theorem statusIn_is_membership (code : Z) (codes : list Z) :
  statusIn code codes = true <-> In code codes.
Proof.
  induction codes as [|c rest IH]; cbn.
  - split; [discriminate | contradiction].
  - destruct (Z.eqb_spec code c) as [->|Hne].
    + split; auto.
    + rewrite IH. split; [auto | intros [E|E]; [congruence | exact E]].
Qed.

(** ** Construction and the revisions side by side *)

Lemma TrimRight_only_slashes (n : nat) : Go.TrimRight (Go.Repeat "/" n) "/" = "".
Proof. induction n as [|n IH]; [reflexivity|]. cbn. cbn in IH. now rewrite IH. Qed.

(** X16.  A base URL made of slashes only passes the check for an empty
    base URL, which comes before the stripping: in each revision
    [NewClient] gives a client whose base URL is empty. *)
Theorem NewClient_accepts_a_base_URL_of_slashes `{Env} (n : nat) (t : Z) (w : World) :
  (forall secret, secret <> "" ->
      exists c,
        fst (ClientGo.NewClient {| ClientGo.BaseURL := Go.Repeat "/" (S n);
                                   ClientGo.HMACSecret := secret;
                                   ClientGo.Timeout := t |} w) = (Some c, None)
        /\ hmac.BaseURL (hmac.config (ClientGo.client c)) = "")
  /\ (exists c,
        fst (Part000.NewClient {| Part000.BaseURL := Go.Repeat "/" (S n);
                                  Part000.Timeout := t |} w) = (Some c, None)
        /\ Part000.baseURL c = "")
  /\ (exists c,
        fst (Part001.NewClient {| Part001.BaseURL := Go.Repeat "/" (S n);
                                  Part001.Timeout := t |} w) = (Some c, None)
        /\ Part001.baseURL c = "").
Proof.
  conjuncts; intros; unfold_client;
    cbn [ClientGo.BaseURL ClientGo.HMACSecret ClientGo.Timeout Part000.BaseURL
         Part000.Timeout Part001.BaseURL Part001.Timeout];
    rewrite TrimRight_only_slashes;
    repeat match goal with
           | E : _ <> "" |- _ => rewrite (proj2 (String.eqb_neq _ _) E)
           end;
    cbn; eexists; split; reflexivity.
Qed.

Lemma NewClient_accepts_a_base_URL_of_slashes_witness :
  exists c,
    fst (ClientGo.NewClient {| ClientGo.BaseURL := "//"; ClientGo.HMACSecret := "s3cret";
                               ClientGo.Timeout := 0 |} emptyWorld) = (Some c, None)
    /\ hmac.BaseURL (hmac.config (ClientGo.client c)) = "".
Proof.
  apply (proj1 (@NewClient_accepts_a_base_URL_of_slashes Demo.env 1 0 emptyWorld) "s3cret").
  discriminate.
Defined.

(** X17.  The two plain HTTP revisions agree: [NewClient] on the same
    configuration gives clients with the same base URL and HTTP client, and
    on such clients a list operation of [part_000] is the [...WithQuery]
    operation of [part_001] under the background context, and likewise the
    get operations: same results, same calls. *)
Theorem plain_revisions_agree `{Env} :
  (forall b t w c0 c1,
      fst (Part000.NewClient {| Part000.BaseURL := b; Part000.Timeout := t |} w)
        = (Some c0, None) ->
      fst (Part001.NewClient {| Part001.BaseURL := b; Part001.Timeout := t |} w)
        = (Some c1, None) ->
      sameSetup c0 c1)
  /\ (forall c0 c1, sameSetup c0 c1 -> forall ctx x w,
      Part000.ListMails c0 ctx x w
        = Part001.ListMailsWithQuery c1 context.Background x w
      /\ Part000.ListTemplates c0 ctx x w
         = Part001.ListTemplatesWithQuery c1 context.Background x w
      /\ Part000.ListAttachments c0 ctx x w
         = Part001.ListAttachmentsWithQuery c1 context.Background x w
      /\ Part000.GetMail c0 ctx x w = Part001.GetMail c1 context.Background x w
      /\ Part000.GetTemplate c0 ctx x w = Part001.GetTemplate c1 context.Background x w
      /\ Part000.GetAttachment c0 ctx x w
         = Part001.GetAttachment c1 context.Background x w).
Proof.
  split.
  - intros b t w c0 c1. unfold_client. cbn [Part000.BaseURL Part000.Timeout
      Part001.BaseURL Part001.Timeout].
    destruct (b =? ""); [discriminate|]. cbn.
    intros E0 E1. injection E0 as <-. injection E1 as <-. split; reflexivity.
  - intros [b0 h0] [b1 h1] [Eb Eh] ctx x w. cbn in Eb, Eh. subst b1 h1.
    conjuncts; unfold_client; unfold Part001.rawQuery_path;
      cbn [Part000.baseURL Part000.httpClient Part001.baseURL Part001.client];
      destruct (x =? ""); cbn [negb]; cbv beta iota zeta; rewrite ?append_assoc;
      step; on_answers; reflexivity.
Qed.

Lemma plain_revisions_agree_witness :
  @Part000.GetMail Demo.env Demo.plainClient0 (context.Derived context.Background "t")
    "gone" emptyWorld
  = @Part001.GetMail Demo.env Demo.plainClient context.Background "gone" emptyWorld.
Proof.
  refine (proj1 (proj2 (proj2 (proj2
            (proj2 (@plain_revisions_agree Demo.env) Demo.plainClient0 Demo.plainClient
               _ (context.Derived context.Background "t") "gone" emptyWorld))))).
  split; reflexivity.
Defined.

(** ** Identifiers *)


(** X18.  Different ids give different segments, hence different URLs: in
    particular an id that the caller escaped beforehand is escaped again and
    names another resource. *)
Theorem pathSeg_is_injective (a b : string) :
  a <> b ->
  pathSeg a <> pathSeg b
  /\ forall listURL, listURL ++ "/" ++ pathSeg a <> listURL ++ "/" ++ pathSeg b.
Proof.
  intros Hab.
  assert (Hseg : pathSeg a <> pathSeg b).
  { intros E. apply Hab.
    pose proof (PathUnescape_PathEscape a) as Ha.
    pose proof (PathUnescape_PathEscape b) as Hb.
    unfold pathSeg in E. rewrite E in Ha. congruence. }
  split; [exact Hseg|].
  intros listURL E. apply Hseg.
  induction listURL as [|c r IH]; cbn in E; [now injection E | injection E; auto].
Qed.

Lemma pathSeg_is_injective_witness :
  pathSeg "a/b" = "a%2Fb" /\ pathSeg "a%2Fb" = "a%252Fb" /\ pathSeg "a/b" <> pathSeg "a%2Fb".
Proof.
  split; [reflexivity | split; [reflexivity|]].
  apply (@pathSeg_is_injective "a/b" "a%2Fb"). discriminate.
Defined.

